(** * Pupil IPC backbone helpers ([pupil_interface/zmq_tools.py])

    A shallow embedding of the convenience classes [ZMQ_handler],
    [ZMQ_Actor], [Msg_Receiver], [Msg_Dispatcher] and [Requester], together
    with the properties of the notification dispatch specification that
    can be settled on them.

    Layout:
    - [Py]    : the fragment of Python values, exceptions and control flow
                the module relies on;
    - [Zmq]   : the contract of a zmq socket as the module consumes it
                (multipart send, frame-wise recv, SUB prefix filter, the
                REQ send/recv alternation, the connection monitor);
    - one module per class of the source, methods keeping their names;
    - the theorems. *)

From Stdlib Require Import ZArith List String Ascii Bool Lia.
From Stdlib Require Import SpecFloat DecimalString.
Import ListNotations.
Local Open Scope string_scope.
Local Open Scope list_scope.

(* ================================================================== *)
(** ** Python values, exceptions, outcomes *)

Module Py.

(** Python 2 [str] is a byte string: a Rocq [string] is exactly that. *)
Definition bytes := string.

(** The values that travel through the module: what a notification dict
    may hold, plus plain objects (a [logging.LogRecord] is one). *)
#[warnings="-register-all"]
Inductive value : Type :=
| VNone
| VBool (b : bool)
| VInt (z : Z)
| VFloat (f : spec_float)
| VStr (s : string)
| VTuple (items : list value)
| VList (items : list value)
| VDict (entries : list (string * value))
| VObject (cls : string) (attrs : list (string * value)).

Definition dict := list (string * value).

(** [d.get(key)] / [key in d] : first binding of [key]. *)
Fixpoint lookup (key : string) (d : dict) : option value :=
  match d with
  | [] => None
  | (k, v) :: rest => if String.eqb k key then Some v else lookup key rest
  end.

(** [d.get(key, default)] *)
Definition get (d : dict) (key : string) (default : value) : value :=
  match lookup key d with
  | Some v => v
  | None => default
  end.

(** Truth value testing, as [if x:] performs it. *)
Definition truthy (v : value) : bool :=
  match v with
  | VNone => false
  | VBool b => b
  | VInt z => negb (Z.eqb z 0)
  | VFloat (S754_zero _) => false
  | VFloat _ => true
  | VStr s => negb (String.eqb s "")
  | VTuple [] => false
  | VTuple _ => true
  | VList [] => false
  | VList _ => true
  | VDict [] => false
  | VDict _ => true
  | VObject _ _ => true
  end.

Inductive zmq_errno :=
  EFSM | ENOTSOCK | ENOTSUP | EINVAL | EPROTONOSUPPORT | EAGAIN.

Inductive exn : Type :=
| AssertionError
| KeyError (key : string)
| AttributeError (name : string)
| TypeError
| Exception_ (msg : string)
| SerializerError
| ZMQError (errno : zmq_errno).

(** What a call does to a state [S]: it returns, it raises, or it never
    comes back (a blocking call the peer never answers).  The state is
    kept in all three cases: it is what the rest of the process sees. *)
Inductive outcome (S A : Type) : Type :=
| Ret (a : A) (s : S)
| Raise (e : exn) (s : S)
| Block (s : S).
Arguments Ret {S A} a s.
Arguments Raise {S A} e s.
Arguments Block {S A} s.

Definition M (S A : Type) : Type := S -> outcome S A.

Definition ret {S A} (a : A) : M S A := fun s => Ret a s.
Definition raise {S A} (e : exn) : M S A := fun s => Raise e s.
Definition bind {S A B} (m : M S A) (k : A -> M S B) : M S B :=
  fun s =>
    match m s with
    | Ret a s' => k a s'
    | Raise e s' => Raise e s'
    | Block s' => Block s'
    end.

Definition final_state {S A} (o : outcome S A) : S :=
  match o with
  | Ret _ s => s
  | Raise _ s => s
  | Block s => s
  end.

Definition returned {S A} (o : outcome S A) : bool :=
  match o with
  | Ret _ _ => true
  | _ => false
  end.

(** [for x in xs: body(x)] *)
Fixpoint for_each {S A} (xs : list A) (body : A -> M S unit) : M S unit :=
  match xs with
  | [] => ret tt
  | x :: rest => bind (body x) (fun _ => for_each rest body)
  end.

(** [str.lower()] in the C locale: ASCII letters only. *)
Definition lower_ascii (c : ascii) : ascii :=
  let n := nat_of_ascii c in
  if andb (Nat.leb 65 n) (Nat.leb n 90) then ascii_of_nat (n + 32) else c.

Fixpoint lower (s : string) : string :=
  match s with
  | EmptyString => EmptyString
  | String c rest => String (lower_ascii c) (lower rest)
  end.

Section Builtins.
(** [str()] of floats, containers and objects is left to the
    interpreter; the module only ever formats strings in practice. *)
Variable str_other : value -> string.

(** [str(x)] *)
Definition str (v : value) : string :=
  match v with
  | VStr s => s
  | VNone => "None"
  | VBool true => "True"
  | VBool false => "False"
  | VInt z => NilZero.string_of_int (Z.to_int z)
  | _ => str_other v
  end.

(** [prefix + "%s" % arg] for a format with the single directive
    [%s]: a tuple on the right is the argument list. *)
Definition format_s (prefix : string) (arg : value) : exn + string :=
  match arg with
  | VTuple [x] => inr (prefix ++ str x)%string
  | VTuple _ => inl TypeError
  | _ => inr (prefix ++ str arg)%string
  end.

(** [prefix + x] : concatenation is defined on [str] only. *)
Definition concat_str (prefix : string) (arg : value) : exn + string :=
  match arg with
  | VStr s => inr (prefix ++ s)%string
  | _ => inl TypeError
  end.
End Builtins.

(** [import msgpack as serializer] (or ujson, says the source): an
    external collaborator, fallible in both directions. *)
Record Serializer : Type := {
  dumps : value -> option bytes;
  loads : bytes -> option value
}.

End Py.

Export Py.

Declare Scope py_scope.
Delimit Scope py_scope with py.
Notation "x <- m ;; k" := (Py.bind m (fun x => k))
  (at level 61, m at next level, right associativity) : py_scope.
Notation "m ;;; k" := (Py.bind m (fun _ => k))
  (at level 61, right associativity) : py_scope.

(* ================================================================== *)
(** ** The zmq socket contract

    zmq itself is an external collaborator.  What follows is the part of
    its documented contract that the classes of the module drive: nothing
    here comes from the repository. *)

Module Zmq.

Inductive socket_type := PUB | SUB | REQ.

(** Socket monitor events ([zmq.EVENT_*]). *)
Inductive event :=
| EVENT_CONNECTED
| EVENT_CONNECT_DELAYED
| EVENT_CONNECT_RETRIED
| EVENT_LISTENING
| EVENT_BIND_FAILED
| EVENT_ACCEPTED
| EVENT_ACCEPT_FAILED
| EVENT_CLOSED
| EVENT_CLOSE_FAILED
| EVENT_DISCONNECTED
| EVENT_MONITOR_STOPPED.

(** A message is a non-empty sequence of frames, delivered whole. *)
Definition message := list bytes.

Record socket : Type := mkSocket {
  stype : socket_type;
  closed : bool;
  endpoints : list string;          (* urls passed to [connect] *)
  monitor : option (list event);    (* monitor socket and its queue *)
  subscriptions : list string;      (* SUB: prefixes, with multiplicity *)
  staged : list bytes;              (* frames sent with SNDMORE so far *)
  wire_out : list message;          (* messages handed to the network *)
  inbox : list (bytes * bool);      (* frames to read, with RCVMORE *)
  awaiting_reply : bool             (* REQ: a request is outstanding *)
}.

Definition set_closed (b : bool) (s : socket) : socket :=
  mkSocket (stype s) b (endpoints s) (monitor s) (subscriptions s)
           (staged s) (wire_out s) (inbox s) (awaiting_reply s).
Definition set_endpoints (e : list string) (s : socket) : socket :=
  mkSocket (stype s) (closed s) e (monitor s) (subscriptions s)
           (staged s) (wire_out s) (inbox s) (awaiting_reply s).
Definition set_monitor (m : option (list event)) (s : socket) : socket :=
  mkSocket (stype s) (closed s) (endpoints s) m (subscriptions s)
           (staged s) (wire_out s) (inbox s) (awaiting_reply s).
Definition set_subscriptions (l : list string) (s : socket) : socket :=
  mkSocket (stype s) (closed s) (endpoints s) (monitor s) l
           (staged s) (wire_out s) (inbox s) (awaiting_reply s).
Definition set_staged (l : list bytes) (s : socket) : socket :=
  mkSocket (stype s) (closed s) (endpoints s) (monitor s) (subscriptions s)
           l (wire_out s) (inbox s) (awaiting_reply s).
Definition set_wire_out (w : list message) (s : socket) : socket :=
  mkSocket (stype s) (closed s) (endpoints s) (monitor s) (subscriptions s)
           (staged s) w (inbox s) (awaiting_reply s).
Definition set_inbox (i : list (bytes * bool)) (s : socket) : socket :=
  mkSocket (stype s) (closed s) (endpoints s) (monitor s) (subscriptions s)
           (staged s) (wire_out s) i (awaiting_reply s).
Definition set_awaiting_reply (b : bool) (s : socket) : socket :=
  mkSocket (stype s) (closed s) (endpoints s) (monitor s) (subscriptions s)
           (staged s) (wire_out s) (inbox s) b.

(** [zmq.Socket(ctx, socket_type)] *)
Definition Socket (t : socket_type) : socket :=
  mkSocket t false [] None [] [] [] [] false.

Definition is_req (s : socket) : bool :=
  match stype s with REQ => true | _ => false end.
Definition is_sub (s : socket) : bool :=
  match stype s with SUB => true | _ => false end.
Definition is_pub (s : socket) : bool :=
  match stype s with PUB => true | _ => false end.

(** [socket.get_monitor_socket()] *)
Definition get_monitor_socket : M socket unit := fun s =>
  if closed s then Raise (ZMQError ENOTSOCK) s
  else Ret tt (set_monitor (Some []) s).

(** What lies outside the process when a socket connects: the verdict of
    the library on the endpoint string ([None] when it takes it, the
    error number otherwise: [EINVAL] for a malformed endpoint,
    [EPROTONOSUPPORT] for an unknown transport) and the events the
    connection attempt then goes through. *)
Record network : Type := mkNetwork {
  endpoint_error : string -> option zmq_errno;
  events : list event
}.

(** [socket.connect(url)].  An endpoint the library does not take is
    refused on the spot.  Otherwise connecting is asynchronous: the call
    returns at once, and the events of the attempt are queued on the
    monitor, if one is attached. *)
Definition connect (net : network) (url : string) : M socket unit := fun s =>
  if closed s then Raise (ZMQError ENOTSOCK) s
  else
    match endpoint_error net url with
    | Some errno => Raise (ZMQError errno) s
    | None =>
        let s1 := set_endpoints (endpoints s ++ [url]) s in
        Ret tt (match monitor s1 with
                | Some q => set_monitor (Some (q ++ events net)) s1
                | None => s1
                end)
    end.

(** [recv_monitor_message(monitor)] : blocks until an event is queued. *)
Definition recv_monitor_message : M socket event := fun s =>
  match monitor s with
  | None => Raise (ZMQError ENOTSOCK) s
  | Some [] => Block s
  | Some (ev :: rest) => Ret ev (set_monitor (Some rest) s)
  end.

(** [socket.disable_monitor()] *)
Definition disable_monitor : M socket unit := fun s =>
  Ret tt (set_monitor None s).

(** [socket.send(frame, flags)], [sndmore] standing for [zmq.SNDMORE].
    Frames sent with SNDMORE are staged; the first frame sent without it
    completes the message, which goes out whole.  A REQ socket refuses to
    send while a reply is outstanding. *)
Definition send (frame : bytes) (sndmore : bool) : M socket unit := fun s =>
  if closed s then Raise (ZMQError ENOTSOCK) s
  else if is_sub s then Raise (ZMQError ENOTSUP) s
  else if andb (is_req s) (awaiting_reply s) then Raise (ZMQError EFSM) s
  else if sndmore then Ret tt (set_staged (staged s ++ [frame]) s)
  else
    Ret tt (set_awaiting_reply (is_req s)
             (set_staged []
               (set_wire_out (wire_out s ++ [staged s ++ [frame]]) s))).

(** [socket.send_multipart((first,) + rest)] : every part but the last
    goes with SNDMORE. *)
Fixpoint send_multipart (first : bytes) (rest : list bytes) : M socket unit :=
  match rest with
  | [] => send first false
  | next :: rest' => bind (send first true) (fun _ => send_multipart next rest')
  end.

(** [socket.recv(flags)], [noblock] standing for [zmq.NOBLOCK]: the next
    frame.  A REQ socket only receives while a reply is outstanding, and
    is free for the next request once the reply's last frame is read.
    The queue holds what was taken in under the subscriptions of the
    time ([deliver]); a SUB socket checks a message against its
    subscriptions once more when it is read, which shows only after a
    subscription was dropped with messages still queued.  Reading after
    an unsubscribe is left outside the model. *)
Definition recv (noblock : bool) : M socket bytes := fun s =>
  if closed s then Raise (ZMQError ENOTSOCK) s
  else if is_pub s then Raise (ZMQError ENOTSUP) s
  else if andb (is_req s) (negb (awaiting_reply s)) then Raise (ZMQError EFSM) s
  else
    match inbox s with
    | [] => if noblock then Raise (ZMQError EAGAIN) s else Block s
    | (frame, more) :: rest =>
        Ret frame (set_awaiting_reply (andb (awaiting_reply s) (orb (negb (is_req s)) more))
                    (set_inbox rest s))
    end.

(** [socket.set(zmq.SUBSCRIBE, topic)] *)
Definition set_SUBSCRIBE (topic : value) : M socket unit := fun s =>
  if closed s then Raise (ZMQError ENOTSOCK) s
  else if negb (is_sub s) then Raise (ZMQError EINVAL) s
  else
    match topic with
    | VStr t => Ret tt (set_subscriptions (subscriptions s ++ [t]) s)
    | _ => Raise TypeError s
    end.

Fixpoint remove_one (t : string) (l : list string) : list string :=
  match l with
  | [] => []
  | x :: rest => if String.eqb x t then rest else x :: remove_one t rest
  end.

(** [socket.set(zmq.UNSUBSCRIBE, topic)] : drops one instance. *)
Definition set_UNSUBSCRIBE (topic : value) : M socket unit := fun s =>
  if closed s then Raise (ZMQError ENOTSOCK) s
  else if negb (is_sub s) then Raise (ZMQError EINVAL) s
  else
    match topic with
    | VStr t => Ret tt (set_subscriptions (remove_one t (subscriptions s)) s)
    | _ => Raise TypeError s
    end.

(** [socket.close()] *)
Definition close : M socket unit := fun s => Ret tt (set_closed true s).

(** The frames of a message as they are read: all but the last carry
    RCVMORE. *)
Fixpoint frames_of (m : message) : list (bytes * bool) :=
  match m with
  | [] => []
  | [f] => [(f, false)]
  | f :: rest => (f, true) :: frames_of rest
  end.

(** A SUB socket takes a message when its first frame starts with one of
    the subscribed prefixes. *)
Definition matches (subs : list string) (m : message) : bool :=
  match m with
  | [] => false
  | topic :: _ => existsb (fun p => String.prefix p topic) subs
  end.

(** The network hands message [m] to socket [s]. *)
Definition deliver (m : message) (s : socket) : socket :=
  match stype s with
  | SUB => if matches (subscriptions s) m
           then set_inbox (inbox s ++ frames_of m) s else s
  | REQ => set_inbox (inbox s ++ frames_of m) s
  | PUB => s
  end.

Definition deliver_all (ms : list message) (s : socket) : socket :=
  fold_left (fun acc m => deliver m acc) ms s.

End Zmq.

Import Zmq.
Local Open Scope py_scope.

(** An expression that may raise, run as a statement. *)
Definition eval {S A} (r : exn + A) : M S A := fun s =>
  match r with
  | inl e => Raise e s
  | inr a => Ret a s
  end.

(** [d[key]] *)
Definition getitem (d : dict) (key : string) : exn + value :=
  match lookup key d with
  | Some v => inr v
  | None => inl (KeyError key)
  end.

(** [obj.name] *)
Definition getattr (obj : value) (name : string) : exn + value :=
  match obj with
  | VObject _ attrs =>
      match lookup name attrs with
      | Some v => inr v
      | None => inl (AttributeError name)
      end
  | _ => inl (AttributeError name)
  end.

(** [iter(x)], as a [for] loop takes it. *)
Definition iter (v : value) : exn + list value :=
  match v with
  | VTuple l => inr l
  | VList l => inr l
  | VDict d => inr (map (fun kv => VStr (fst kv)) d)
  | VStr s => inr (map (fun c => VStr (String c EmptyString)) (list_ascii_of_string s))
  | _ => inl TypeError
  end.

(** [serializer.dumps(payload)] / [serializer.loads(raw)] *)
Definition serializer_dumps (serializer : Serializer) (payload : value)
  : exn + bytes :=
  match dumps serializer payload with
  | Some b => inr b
  | None => inl SerializerError
  end.
Definition serializer_loads (serializer : Serializer) (raw : bytes)
  : exn + value :=
  match loads serializer raw with
  | Some v => inr v
  | None => inl SerializerError
  end.

(* ================================================================== *)
(** ** class ZMQ_Actor *)

Module ZMQ_Actor.

(** The object under construction: [self.socket] is unset until the
    first statement of [__init__] has run. *)
Definition self := option socket.

(** A statement on [self.socket]. *)
Definition on_socket {A} (m : M socket A) : M self A := fun this =>
  match this with
  | None => Raise (AttributeError "socket") None
  | Some s =>
      match m s with
      | Ret a s' => Ret a (Some s')
      | Raise e s' => Raise e (Some s')
      | Block s' => Block (Some s')
      end
  end.

(** The [while True] loop of [__init__].  Each turn reads one monitor
    event; [fuel] bounds the number of turns and is never the reason the
    loop stops when it exceeds the number of queued events (see
    [wait_connected_fuel]). *)
Fixpoint wait_connected (fuel : nat) : M socket unit :=
  match fuel with
  | O => fun s => Block s
  | S fuel' =>
      status <- recv_monitor_message ;;
      match status with
      | EVENT_CONNECTED => ret tt
      | EVENT_CONNECT_DELAYED => wait_connected fuel'
      | _ => raise (Exception_ "ZMQ connection failed")
      end
  end.

Definition queued (s : socket) : nat :=
  match monitor s with
  | Some q => List.length q
  | None => 0
  end.

(** The loop, run with one turn more than there are queued events. *)
Definition block_until_connected : M socket unit := fun s =>
  wait_connected (S (queued s)) s.

Definition __init__ (net : network) (socket_type : Zmq.socket_type)
    (url : string) (block_unitl_connected : bool) : M self unit := fun _ =>
  on_socket
    (if block_unitl_connected then
       get_monitor_socket ;;;
       connect net url ;;;
       block_until_connected ;;;
       disable_monitor
     else
       connect net url)
    (Some (Zmq.Socket socket_type)).

End ZMQ_Actor.

(* ================================================================== *)
(** ** class Msg_Receiver(ZMQ_Actor) *)

Module Msg_Receiver.
Section WithSerializer.
Variable serializer : Serializer.

Definition subscribe (topic : value) : M socket unit :=
  set_SUBSCRIBE topic.

Definition unsubscribe (topic : value) : M socket unit :=
  set_UNSUBSCRIBE topic.

Definition __init__ (net : network) (url : string) (topics : value)
    (block_unitl_connected : bool) : M ZMQ_Actor.self unit :=
  match topics with
  | VStr _ => raise AssertionError
  | _ =>
      ZMQ_Actor.__init__ net SUB url block_unitl_connected ;;;
      ts <- eval (iter topics) ;;
      for_each ts (fun t => ZMQ_Actor.on_socket (subscribe t))
  end.

(** [recv] passes its arguments through to the socket: [noblock]
    stands for the flag [zmq.NOBLOCK]. *)
Definition recv (noblock : bool) : M socket (bytes * value) :=
  topic <- Zmq.recv noblock ;;
  raw <- Zmq.recv noblock ;;
  payload <- eval (serializer_loads serializer raw) ;;
  ret (topic, payload).

Definition __del__ : M socket unit := Zmq.close.
End WithSerializer.
End Msg_Receiver.

(* ================================================================== *)
(** ** class Msg_Dispatcher(ZMQ_Actor) *)

Module Msg_Dispatcher.
Section WithRuntime.
Variable serializer : Serializer.
Variable str_other : value -> string.

Definition __init__ (net : network) (url : string)
    (block_unitl_connected : bool) : M ZMQ_Actor.self unit :=
  ZMQ_Actor.__init__ net PUB url block_unitl_connected.

Definition send (topic payload : value) : M socket unit :=
  Zmq.send (str str_other topic) true ;;;
  raw <- eval (serializer_dumps serializer payload) ;;
  Zmq.send raw false.

Definition notify (notification : dict) : M socket unit :=
  if truthy (get notification "delay" (VInt 0)) then
    subject <- eval (getitem notification "subject") ;;
    topic <- eval (format_s str_other "delayed_notify." subject) ;;
    send (VStr topic) (VDict notification)
  else
    subject <- eval (getitem notification "subject") ;;
    topic <- eval (format_s str_other "notify." subject) ;;
    send (VStr topic) (VDict notification).

Definition __del__ : M socket unit := Zmq.close.
End WithRuntime.
End Msg_Dispatcher.

(* ================================================================== *)
(** ** class Requester(ZMQ_Actor) *)

Module Requester.
Section WithSerializer.
Variable serializer : Serializer.

Definition __init__ (net : network) (url : string)
    (block_unitl_connected : bool) : M ZMQ_Actor.self unit :=
  ZMQ_Actor.__init__ net REQ url block_unitl_connected.

Definition send_cmd (cmd : bytes) : M socket bytes :=
  Zmq.send cmd false ;;;
  Zmq.recv false.

Definition notify (notification : dict) : M socket bytes :=
  subject <- eval (getitem notification "subject") ;;
  topic <- eval (concat_str "notify." subject) ;;
  payload <- eval (serializer_dumps serializer (VDict notification)) ;;
  send_multipart topic [payload] ;;;
  Zmq.recv false.

Definition __del__ : M socket unit := Zmq.close.
End WithSerializer.
End Requester.

(* ================================================================== *)
(** ** class ZMQ_handler(logging.Handler) *)

Module ZMQ_handler.
Section WithRuntime.
Variable serializer : Serializer.
Variable str_other : value -> string.

(** [self.socket] is a [Msg_Dispatcher]. *)
Definition __init__ (net : network) (ipc_pub_url : string)
  : M ZMQ_Actor.self unit :=
  Msg_Dispatcher.__init__ net ipc_pub_url true.

Definition emit (record : value) : M socket unit :=
  levelname <- eval (getattr record "levelname") ;;
  topic <- eval (format_s str_other "logging."
                   (VStr (lower (str str_other levelname)))) ;;
  Msg_Dispatcher.send serializer str_other (VStr topic) record.
End WithRuntime.
End ZMQ_handler.

(* ================================================================== *)
(** ** Observations on a run *)

(** The state a completed send leaves: message [m] is on the wire and
    nothing is staged. *)
Definition published (m : message) (s : socket) : socket :=
  set_awaiting_reply (is_req s)
    (set_staged [] (set_wire_out (wire_out s ++ [m]) s)).

(** The messages a call put on the wire, whatever its outcome. *)
Definition sent_by {A} (call : M socket A) (s : socket) : list message :=
  skipn (List.length (wire_out s)) (wire_out (final_state (call s))).

Definition topic_of (m : message) : bytes :=
  match m with
  | [] => ""
  | t :: _ => t
  end.

(** The messages of [ms] published on [topic]. *)
Definition on_topic (topic : bytes) (ms : list message) : list message :=
  filter (fun m => String.eqb (topic_of m) topic) ms.

(** A dispatcher that can publish: an open PUB socket with no half-sent
    message.  Construction yields one and every completed send keeps it
    (lemmas [fresh_dispatcher_ready] and [published_ready]). *)
Definition ready (s : socket) : bool :=
  negb (closed s) && is_pub s && match staged s with [] => true | _ => false end.

(** An idle request/reply connection: an open REQ socket with no request
    outstanding and no half-sent message. *)
Definition idle (s : socket) : bool :=
  negb (closed s) && is_req s && negb (awaiting_reply s)
  && match staged s with [] => true | _ => false end.

(** An open subscriber. *)
Definition listening (s : socket) : bool :=
  negb (closed s) && is_sub s.

(** The first monitor event that settles a connection attempt. *)
Fixpoint first_decisive (net : list event) : option event :=
  match net with
  | [] => None
  | EVENT_CONNECT_DELAYED :: rest => first_decisive rest
  | ev :: _ => Some ev
  end.

(** The events left in the monitor queue after the settling one. *)
Fixpoint after_decisive (net : list event) : list event :=
  match net with
  | [] => []
  | EVENT_CONNECT_DELAYED :: rest => after_decisive rest
  | _ :: rest => rest
  end.

(** [self.socket], once assigned. *)
Definition socket_of (this : ZMQ_Actor.self) : socket :=
  match this with
  | Some s => s
  | None => Zmq.Socket PUB
  end.

(** [for n in notifications: dispatcher.notify(n)] *)
Definition notify_each (serializer : Serializer) (str_other : value -> string)
    (notifications : list dict) : M socket unit :=
  for_each notifications (Msg_Dispatcher.notify serializer str_other).

(** The connection loop is decided by the first event that is not
    [EVENT_CONNECT_DELAYED]; fuel beyond the queue length is never used. *)
Definition settle (q : list event) (s : socket) : outcome socket unit :=
  match first_decisive q with
  | Some EVENT_CONNECTED => Ret tt (set_monitor (Some (after_decisive q)) s)
  | Some _ => Raise (Exception_ "ZMQ connection failed")
                    (set_monitor (Some (after_decisive q)) s)
  | None => Block (set_monitor (Some []) s)
  end.

(** The socket [__init__] works on, connected to [url] with a monitor
    holding what is left of the network's events. *)
Definition connecting (t : socket_type) (url : string) (left : option (list event))
  : socket :=
  mkSocket t false [url] left [] [] [] [] false.

(** The prefix [notify] chooses: the only use it makes of [delay]. *)
Definition topic_prefix (notification : dict) : string :=
  if truthy (get notification "delay" (VInt 0))
  then "delayed_notify." else "notify.".

(** What the coalescing design asks of a run of [notify] calls for one
    subject: a single message on [delayed_notify.<subject>], carrying the
    payload of the last notification. *)
Definition single_flush (serializer : Serializer) (str_other : value -> string)
    (notifications : list dict) (subject : string) (s : socket) : Prop :=
  exists raw,
    option_map (fun n => dumps serializer (VDict n))
               (nth_error notifications (List.length notifications - 1))
      = Some (Some raw) /\
    on_topic ("delayed_notify." ++ subject)%string
             (sent_by (notify_each serializer str_other notifications) s)
      = [[("delayed_notify." ++ subject)%string; raw]].

(** A delay below zero. *)
Definition negative (v : value) : bool :=
  match v with
  | VInt z => Z.ltb z 0
  | VFloat (S754_finite true _ _) => true
  | VFloat (S754_infinity true) => true
  | _ => false
  end.

(** The notifications the validation of the notification model turns
    down: an empty subject, or a delay that is present and negative.  (A
    payload whose subject differs from the notification's cannot be
    written down here: the dict is the payload.) *)
Definition invalid_notification (notification : dict) : bool :=
  match lookup "subject" notification with
  | Some (VStr subject) => String.eqb subject ""
  | _ => false
  end
  || match lookup "delay" notification with
     | Some d => negative d
     | None => false
     end.

(** A call that was turned down: it raised and sent nothing. *)
Definition rejected {A} (call : M socket A) (s : socket) : Prop :=
  (exists e s', call s = Raise e s') /\ sent_by call s = [].

(** Whether the constructor left no socket open behind it. *)
Definition released (this : ZMQ_Actor.self) : bool :=
  match this with
  | None => true
  | Some s => closed s
  end.

(** What the scoped-acquisition reading asks of the constructor: it
    returns or raises, and a failed construction leaves the socket
    closed. *)
Definition scoped_acquisition (o : outcome ZMQ_Actor.self unit) : Prop :=
  match o with
  | Ret _ _ => True
  | Raise _ this => released this = true
  | Block _ => False
  end.

(** [[receiver.recv() for _ in range(n)]] : the listening loop of the
    module's script, cut after [n] messages. *)
Fixpoint recv_n (serializer : Serializer) (n : nat)
  : M socket (list (bytes * value)) :=
  match n with
  | O => ret []
  | S n' =>
      m <- Msg_Receiver.recv serializer false ;;
      rest <- recv_n serializer n' ;;
      ret (m :: rest)
  end.

(** [[requester.send_cmd(c) for c in cmds]] *)
Fixpoint send_cmds (cmds : list bytes) : M socket (list bytes) :=
  match cmds with
  | [] => ret []
  | c :: cmds' =>
      r <- Requester.send_cmd c ;;
      rest <- send_cmds cmds' ;;
      ret (r :: rest)
  end.

(** The frames a subscriber queues for two-frame messages. *)
Definition two_frames (topic raw : bytes) : list (bytes * bool) :=
  [(topic, true); (raw, false)].

(** What a call may do to a socket: leave everything but the outgoing
    side alone, and add at most one message after those already sent. *)
Definition appends_at_most_one (s s' : socket) : Prop :=
  stype s' = stype s /\ closed s' = closed s /\
  endpoints s' = endpoints s /\ monitor s' = monitor s /\
  subscriptions s' = subscriptions s /\ inbox s' = inbox s /\
  exists added, wire_out s' = wire_out s ++ added /\ List.length added <= 1.



(** A serializer with no encoding for plain objects: [dumps] raises on
    them, as msgpack does on a [logging.LogRecord]. *)
Definition refuses_objects (serializer : Serializer) : Prop :=
  forall cls attrs, dumps serializer (VObject cls attrs) = None.

(* ================================================================== *)
(** ** A serializer to run examples with

    A plain-text rendering in the manner of the json serializer the
    source offers as an alternative; decoding is by code book. *)

Module Demo.
Local Open Scope string_scope.

Definition render_float (f : spec_float) : string :=
  match f with
  | S754_zero false => "0.0"
  | S754_zero true => "-0.0"
  | S754_infinity false => "inf"
  | S754_infinity true => "-inf"
  | S754_nan => "nan"
  | S754_finite sign m e =>
      (if sign then "-" else "") ++
      NilZero.string_of_uint (Pos.to_uint m) ++ "p" ++
      NilZero.string_of_int (Z.to_int e)
  end.

Fixpoint render (v : value) : string :=
  match v with
  | VNone => "null"
  | VBool true => "true"
  | VBool false => "false"
  | VInt z => NilZero.string_of_int (Z.to_int z)
  | VFloat f => render_float f
  | VStr s => "'" ++ s ++ "'"
  | VTuple l | VList l =>
      "[" ++ (fix items (l : list value) : string :=
                match l with
                | [] => ""
                | x :: rest => render x ++ "," ++ items rest
                end) l ++ "]"
  | VDict d | VObject _ d =>
      "{" ++ (fix entries (d : list (string * value)) : string :=
                match d with
                | [] => ""
                | (k, x) :: rest =>
                    "'" ++ k ++ "':" ++ render x ++ "," ++ entries rest
                end) d ++ "}"
  end.

Definition decode (book : list value) (raw : bytes) : option value :=
  find (fun v => String.eqb (render v) raw) book.

Definition serializer (book : list value) : Serializer :=
  {| dumps := fun v => Some (render v); loads := decode book |}.

Definition str_other (v : value) : string := render v.

(** 0.1 as a binary64: 0x1.999999999999ap-4. *)
Definition tenth : spec_float := S754_finite false 7205759403792794 (-56).

Definition A1 : dict := [("subject", VStr "A"); ("delay", VFloat tenth); ("v", VInt 1)].
Definition A2 : dict := [("subject", VStr "A"); ("delay", VFloat tenth); ("v", VInt 2)].
Definition ping : dict := [("subject", VStr "pingback_test"); ("index", VInt 7)].
Definition nameless : dict := [("subject", VStr ""); ("v", VInt 1)].
Definition overdue : dict := [("subject", VStr "A"); ("delay", VInt (-1))].
Definition warning : value :=
  VObject "LogRecord" [("levelname", VStr "WARNING"); ("msg", VStr "low battery")].

Definition publisher : socket :=
  mkSocket PUB false ["tcp://localhost:50021"] None [] [] [] [] false.
Definition monitor_socket : socket :=
  mkSocket SUB false ["tcp://localhost:50022"] None ["notify."] [] [] [] false.
Definition remote : socket :=
  mkSocket REQ false ["tcp://localhost:50020"] None [] [] [] [] false.

(** A serializer that, like msgpack, has no encoding for plain objects. *)
Definition strict (book : list value) : Serializer :=
  {| dumps := fun v => match v with
                       | VObject _ _ => None
                       | _ => Some (render v)
                       end;
     loads := decode book |}.

(** A serializer that refuses everything. *)
Definition refusing : Serializer :=
  {| dumps := fun _ => None; loads := fun _ => None |}.

Definition pong : dict := [("subject", VStr "pong"); ("index", VInt 8)].
Definition numbered : dict := [("subject", VInt 42)].
Definition wrapped : dict := [("subject", VTuple [VStr "A"])].
Definition paired : dict := [("subject", VTuple [VStr "A"; VStr "B"])].
End Demo.

(** The inputs the examples run on. *)
Module Run.

Definition codec : Serializer := Demo.serializer [VDict Demo.ping].
Definition url : string := "tcp://localhost:50021".

(** A network that takes every [tcp://] endpoint and refuses the rest as
    malformed, with the events a connection attempt goes through. *)
Definition tcp_only (attempt : list event) : network :=
  mkNetwork (fun endpoint =>
               if String.prefix "tcp://" endpoint then None else Some EINVAL)
            attempt.

(** The scenario of two delayed notifications for subject A, payloads
    [v:1] then [v:2]. *)
Definition scenario : list dict := [Demo.A1; Demo.A2].
Definition raw_of (n : dict) : bytes := Demo.render (VDict n).

Definition wide : Serializer := Demo.serializer [VDict Demo.ping; VDict Demo.pong].
Definition strict : Serializer := Demo.strict [VDict Demo.ping].

End Run.

(* ================================================================== *)
(** ** Basic facts *)

Ltac open_socket s :=
  destruct s as [ty cl eps mon subs stg wire inb awt]; simpl in *.

Lemma skipn_app_exact {A} (l r : list A) : skipn (List.length l) (l ++ r) = r.
Proof. induction l as [|x l IH]; simpl; auto. Qed.

Lemma ready_inv (s : socket) :
  ready s = true -> closed s = false /\ stype s = PUB /\ staged s = [].
Proof.
  unfold ready, is_pub. open_socket s.
  destruct cl, ty, stg; simpl; intros H; try discriminate H; auto.
Qed.

Lemma idle_inv (s : socket) :
  idle s = true ->
  closed s = false /\ stype s = REQ /\ awaiting_reply s = false /\ staged s = [].
Proof.
  unfold idle, is_req. open_socket s.
  destruct cl, ty, awt, stg; simpl; intros H; try discriminate H; auto.
Qed.

Lemma listening_inv (s : socket) :
  listening s = true -> closed s = false /\ stype s = SUB.
Proof.
  unfold listening, is_sub. open_socket s.
  destruct cl, ty; simpl; intros H; try discriminate H; auto.
Qed.

Lemma published_ready (m : message) (s : socket) :
  ready s = true -> ready (published m s) = true.
Proof.
  intros H. apply ready_inv in H. destruct H as (Hc & Ht & Hs).
  open_socket s. subst. reflexivity.
Qed.

Lemma published_wire (m : message) (s : socket) :
  wire_out (published m s) = wire_out s ++ [m].
Proof. reflexivity. Qed.

(** A completed send touches the wire and nothing the dispatcher could
    keep a notification in. *)
Lemma published_frame (m : message) (s : socket) :
  stype (published m s) = stype s /\
  closed (published m s) = closed s /\
  endpoints (published m s) = endpoints s /\
  monitor (published m s) = monitor s /\
  subscriptions (published m s) = subscriptions s /\
  inbox (published m s) = inbox s /\
  staged (published m s) = [].
Proof. repeat split. Qed.

Lemma sent_by_published {A} (call : M socket A) (s : socket) (m : message) :
  final_state (call s) = published m s -> sent_by call s = [m].
Proof.
  intros H. unfold sent_by. rewrite H, published_wire. apply skipn_app_exact.
Qed.

Lemma sent_by_unchanged {A} (call : M socket A) (s : socket) :
  wire_out (final_state (call s)) = wire_out s -> sent_by call s = [].
Proof.
  intros H. unfold sent_by. rewrite H.
  rewrite <- (app_nil_r (wire_out s)) at 2. apply skipn_app_exact.
Qed.

Lemma set_monitor_twice (a b : option (list event)) (s : socket) :
  set_monitor a (set_monitor b s) = set_monitor a s.
Proof. reflexivity. Qed.

Lemma set_monitor_same (s : socket) (q : option (list event)) :
  monitor s = q -> set_monitor q s = s.
Proof. intros <-. open_socket s. reflexivity. Qed.

Lemma wait_connected_settle (fuel : nat) (q : list event) (s : socket) :
  monitor s = Some q ->
  List.length q < fuel ->
  ZMQ_Actor.wait_connected fuel s = settle q s.
Proof.
  revert q s. induction fuel as [|fuel IH]; intros q s Hm Hlen; [lia|].
  simpl. unfold bind, recv_monitor_message, settle. rewrite Hm.
  destruct q as [|ev rest]; simpl.
  - rewrite (set_monitor_same s (Some [])); auto.
  - simpl in Hlen.
    destruct ev; simpl; try reflexivity.
    rewrite (IH rest (set_monitor (Some rest) s)); [|reflexivity|lia].
    unfold settle.
    destruct (first_decisive rest) as [[]|]; rewrite set_monitor_twice;
      reflexivity.
Qed.

(** Fuel beyond the queue length is never used: any two budgets above the queue length agree. *)
Lemma wait_connected_fuel (f1 f2 : nat) (q : list event) (s : socket) :
  monitor s = Some q ->
  List.length q < f1 -> List.length q < f2 ->
  ZMQ_Actor.wait_connected f1 s = ZMQ_Actor.wait_connected f2 s.
Proof.
  intros Hm H1 H2.
  rewrite (wait_connected_settle f1 q s Hm H1).
  rewrite (wait_connected_settle f2 q s Hm H2). reflexivity.
Qed.

Lemma block_until_connected_settle (q : list event) (s : socket) :
  monitor s = Some q ->
  ZMQ_Actor.block_until_connected s = settle q s.
Proof.
  intros Hm. unfold ZMQ_Actor.block_until_connected.
  apply wait_connected_settle; [exact Hm|].
  unfold ZMQ_Actor.queued. rewrite Hm. lia.
Qed.

Lemma init_blocking (net : network) (t : socket_type) (url : string)
    (this : ZMQ_Actor.self) :
  ZMQ_Actor.__init__ net t url true this
  = match endpoint_error net url with
    | Some errno =>
        Raise (ZMQError errno) (Some (set_monitor (Some []) (Zmq.Socket t)))
    | None =>
        match first_decisive (events net) with
        | Some EVENT_CONNECTED => Ret tt (Some (connecting t url None))
        | Some _ => Raise (Exception_ "ZMQ connection failed")
                          (Some (connecting t url
                                   (Some (after_decisive (events net)))))
        | None => Block (Some (connecting t url (Some [])))
        end
    end.
Proof.
  unfold ZMQ_Actor.__init__, ZMQ_Actor.on_socket, bind.
  unfold get_monitor_socket, connect.
  cbn [closed monitor Socket set_monitor set_endpoints endpoints app].
  destruct (endpoint_error net url) as [errno|]; [reflexivity|].
  rewrite (block_until_connected_settle (events net)); [|reflexivity].
  unfold settle.
  destruct (first_decisive (events net)) as [[]|]; reflexivity.
Qed.

Lemma init_nonblocking (net : network) (t : socket_type) (url : string)
    (this : ZMQ_Actor.self) :
  ZMQ_Actor.__init__ net t url false this
  = match endpoint_error net url with
    | Some errno => Raise (ZMQError errno) (Some (Zmq.Socket t))
    | None => Ret tt (Some (connecting t url None))
    end.
Proof.
  unfold ZMQ_Actor.__init__, ZMQ_Actor.on_socket, connect.
  cbn [closed Socket]. destruct (endpoint_error net url); reflexivity.
Qed.

(** When the base constructor returns. *)
Lemma init_returns (net : network) (t : socket_type) (url : string)
    (b : bool) (this : ZMQ_Actor.self) :
  endpoint_error net url = None ->
  b = false \/ first_decisive (events net) = Some EVENT_CONNECTED ->
  ZMQ_Actor.__init__ net t url b this = Ret tt (Some (connecting t url None)).
Proof.
  intros Hok Hconn. destruct b.
  - destruct Hconn as [Hb|Hfd]; [discriminate Hb|].
    rewrite init_blocking, Hok, Hfd. reflexivity.
  - rewrite init_nonblocking, Hok. reflexivity.
Qed.

Lemma on_topic_all (topic : bytes) (raws : list bytes) :
  on_topic topic (map (fun raw => [topic; raw]) raws)
  = map (fun raw => [topic; raw]) raws.
Proof.
  unfold on_topic.
  induction raws as [|raw raws IH]; simpl; [reflexivity|].
  rewrite String.eqb_refl, IH. reflexivity.
Qed.

(** Whatever became of its construction, a dispatcher's socket is ready. *)
Lemma fresh_dispatcher_ready (net : network) (url : string) (b : bool)
    (this : ZMQ_Actor.self) :
  ready (socket_of (final_state (Msg_Dispatcher.__init__ net url b this))) = true.
Proof.
  unfold Msg_Dispatcher.__init__. destruct b.
  - rewrite init_blocking.
    destruct (endpoint_error net url); [reflexivity|].
    destruct (first_decisive (events net)) as [[]|]; reflexivity.
  - rewrite init_nonblocking.
    destruct (endpoint_error net url); reflexivity.
Qed.

Section DispatcherFacts.
Variable serializer : Serializer.
Variable str_other : value -> string.

Lemma send_ready (topic payload : value) (raw : bytes) (s : socket) :
  ready s = true ->
  dumps serializer payload = Some raw ->
  Msg_Dispatcher.send serializer str_other topic payload s
  = Ret tt (published [str str_other topic; raw] s).
Proof.
  intros Hr Hd. apply ready_inv in Hr. destruct Hr as (Hc & Ht & Hs).
  unfold Msg_Dispatcher.send, bind, Zmq.send, eval, serializer_dumps.
  open_socket s. subst. simpl. rewrite Hd. simpl. reflexivity.
Qed.

(** When the payload does not serialize, the topic frame has already
    been sent with SNDMORE: the call raises with that frame staged. *)
Lemma send_unserializable (topic payload : value) (s : socket) :
  ready s = true ->
  dumps serializer payload = None ->
  Msg_Dispatcher.send serializer str_other topic payload s
  = Raise SerializerError (set_staged [str str_other topic] s).
Proof.
  intros Hr Hd. apply ready_inv in Hr. destruct Hr as (Hc & Ht & Hs).
  unfold Msg_Dispatcher.send, bind, Zmq.send, eval, serializer_dumps.
  open_socket s. subst. simpl. rewrite Hd. reflexivity.
Qed.

Lemma notify_ready (notification : dict) (subject : string) (raw : bytes)
    (s : socket) :
  ready s = true ->
  lookup "subject" notification = Some (VStr subject) ->
  dumps serializer (VDict notification) = Some raw ->
  Msg_Dispatcher.notify serializer str_other notification s
  = Ret tt (published [(topic_prefix notification ++ subject)%string; raw] s).
Proof.
  intros Hr Hsub Hd.
  unfold Msg_Dispatcher.notify, topic_prefix.
  destruct (truthy (get notification "delay" (VInt 0)));
    unfold bind, eval, getitem; rewrite Hsub; simpl;
    rewrite (send_ready _ _ raw s Hr Hd); reflexivity.
Qed.
End DispatcherFacts.

(* ================================================================== *)
(** ** Msg_Dispatcher.notify *)

Section NotifyTheorems.
Variable serializer : Serializer.
Variable str_other : value -> string.

Local Abbreviation notify := (Msg_Dispatcher.notify serializer str_other).

(** C2.  [notify] never holds a notification back.  Whatever the
    [delay] field holds, and whether or not there is one, the call
    returns having put exactly one message on the wire: the serialized
    notification, under a topic; nothing is left staged and no other
    part of the dispatcher changes. *)
Theorem notify_sends_immediately
    (notification : dict) (subject : string) (raw : bytes) (s : socket) :
  ready s = true ->
  lookup "subject" notification = Some (VStr subject) ->
  dumps serializer (VDict notification) = Some raw ->
  exists topic,
    notify notification s = Ret tt (published [topic; raw] s) /\
    sent_by (notify notification) s = [[topic; raw]] /\
    staged (published [topic; raw] s) = [] /\
    inbox (published [topic; raw] s) = inbox s.
Proof.
  intros Hr Hsub Hd.
  exists (topic_prefix notification ++ subject)%string.
  pose proof (notify_ready serializer str_other _ _ _ _ Hr Hsub Hd) as E.
  repeat split; try exact E.
  apply sent_by_published. rewrite E. reflexivity.
Qed.

(** C3.  The topic is chosen by the truth value of
    [notification.get('delay', 0)].  With the delay absent or zero the
    one message goes out on [notify.<subject>]; with a truthy delay it
    goes out on [delayed_notify.<subject>].  Either way the payload is
    the notification as given, and the state left is the state found
    plus that message: nothing to coalesce with is created. *)
Theorem notify_topic_by_delay
    (notification : dict) (subject : string) (raw : bytes) (s : socket) :
  ready s = true ->
  lookup "subject" notification = Some (VStr subject) ->
  dumps serializer (VDict notification) = Some raw ->
  ((lookup "delay" notification = None \/
    lookup "delay" notification = Some (VInt 0) \/
    (exists sign, lookup "delay" notification = Some (VFloat (S754_zero sign)))) ->
     notify notification s
       = Ret tt (published [("notify." ++ subject)%string; raw] s) /\
     sent_by (notify notification) s = [[("notify." ++ subject)%string; raw]])
  /\
  (truthy (get notification "delay" (VInt 0)) = true ->
     notify notification s
       = Ret tt (published [("delayed_notify." ++ subject)%string; raw] s) /\
     sent_by (notify notification) s
       = [[("delayed_notify." ++ subject)%string; raw]]).
Proof.
  intros Hr Hsub Hd.
  pose proof (notify_ready serializer str_other _ _ _ _ Hr Hsub Hd) as E.
  unfold topic_prefix in E.
  split.
  - intros Hdelay.
    assert (Hf : truthy (get notification "delay" (VInt 0)) = false).
    { unfold get. destruct Hdelay as [H|[H|[sign H]]]; rewrite H; reflexivity. }
    rewrite Hf in E. split; [exact E|].
    apply sent_by_published. rewrite E. reflexivity.
  - intros Ht. rewrite Ht in E. split; [exact E|].
    apply sent_by_published. rewrite E. reflexivity.
Qed.

(** A run of [notify] calls on a ready dispatcher: one message per
    call, in call order. *)
Lemma notify_each_run (subject : string) (ns : list dict) (raws : list bytes) :
  Forall2 (fun n raw =>
             lookup "subject" n = Some (VStr subject) /\
             dumps serializer (VDict n) = Some raw) ns raws ->
  forall s, ready s = true ->
  exists s',
    notify_each serializer str_other ns s = Ret tt s' /\
    ready s' = true /\
    wire_out s' = wire_out s ++
      map (fun nr => [(topic_prefix (fst nr) ++ subject)%string; snd nr])
          (combine ns raws).
Proof.
  induction 1 as [|n raw ns raws [Hsub Hd] _ IH]; intros s Hr.
  - exists s. simpl. rewrite app_nil_r. auto.
  - unfold notify_each. simpl. unfold bind.
    rewrite (notify_ready serializer str_other n subject raw s Hr Hsub Hd).
    destruct (IH (published [(topic_prefix n ++ subject)%string; raw] s))
      as (s' & Erun & Hr' & Hw).
    { apply published_ready, Hr. }
    exists s'. split; [exact Erun|]. split; [exact Hr'|].
    rewrite Hw, published_wire, <- app_assoc. reflexivity.
Qed.

(** C1, as the code has it.  A run of [notify] calls with one subject
    and truthy (so, in particular, positive) delays is not coalesced:
    every call returns with its own message already on the wire, so
    the run sends as many messages on [delayed_notify.<subject>] as
    there were calls, in call order, each with the payload of its own
    notification. *)
Theorem notify_each_sends_each
    (subject : string) (ns : list dict) (raws : list bytes) (s : socket) :
  ready s = true ->
  Forall2 (fun n raw =>
             lookup "subject" n = Some (VStr subject) /\
             truthy (get n "delay" (VInt 0)) = true /\
             dumps serializer (VDict n) = Some raw) ns raws ->
  returned (notify_each serializer str_other ns s) = true /\
  sent_by (notify_each serializer str_other ns) s
    = map (fun raw => [("delayed_notify." ++ subject)%string; raw]) raws /\
  on_topic ("delayed_notify." ++ subject)%string
           (sent_by (notify_each serializer str_other ns) s)
    = map (fun raw => [("delayed_notify." ++ subject)%string; raw]) raws.
Proof.
  intros Hr Hall.
  assert (Hall' : Forall2 (fun n raw =>
             lookup "subject" n = Some (VStr subject) /\
             dumps serializer (VDict n) = Some raw) ns raws).
  { induction Hall as [|n raw ns raws (Hs & _ & Hd) _ IH]; constructor; auto. }
  destruct (notify_each_run subject ns raws Hall' s Hr) as (s' & Erun & _ & Hw).
  assert (Hmap : map (fun nr => [(topic_prefix (fst nr) ++ subject)%string; snd nr])
                     (combine ns raws)
                 = map (fun raw => [("delayed_notify." ++ subject)%string; raw]) raws).
  { clear - Hall.
    induction Hall as [|n raw ns raws (_ & Ht & _) _ IH]; simpl; [reflexivity|].
    unfold topic_prefix at 1. rewrite Ht, IH. reflexivity. }
  assert (Hsent : sent_by (notify_each serializer str_other ns) s
                  = map (fun raw => [("delayed_notify." ++ subject)%string; raw]) raws).
  { unfold sent_by. rewrite Erun. simpl. rewrite Hw, Hmap. apply skipn_app_exact. }
  split; [rewrite Erun; reflexivity|]. split; [exact Hsent|].
  rewrite Hsent. apply on_topic_all.
Qed.

(** C5, as the code has it.  [notify] validates nothing.  A
    notification whose subject is a string is accepted and sent once,
    be the subject empty and be the delay negative (a negative delay is
    truthy: the message goes out on [delayed_notify.<subject>]).  The
    one notification turned down is the one without a subject field:
    [KeyError], raised before anything is sent. *)
Theorem notify_validates_nothing (notification : dict) :
  (forall s, lookup "subject" notification = None ->
     notify notification s = Raise (KeyError "subject") s /\
     sent_by (notify notification) s = []) /\
  (forall subject raw s,
     ready s = true ->
     lookup "subject" notification = Some (VStr subject) ->
     dumps serializer (VDict notification) = Some raw ->
     notify notification s
       = Ret tt (published [(topic_prefix notification ++ subject)%string; raw] s) /\
     sent_by (notify notification) s
       = [[(topic_prefix notification ++ subject)%string; raw]]) /\
  (forall d, lookup "delay" notification = Some d -> negative d = true ->
     topic_prefix notification = "delayed_notify.").
Proof.
  split; [|split].
  - intros s Hnone.
    assert (E : notify notification s = Raise (KeyError "subject") s).
    { unfold Msg_Dispatcher.notify, bind, eval, getitem. rewrite Hnone.
      destruct (truthy _); reflexivity. }
    split; [exact E|]. apply sent_by_unchanged. rewrite E. reflexivity.
  - intros subject raw s Hr Hsub Hd.
    pose proof (notify_ready serializer str_other _ _ _ _ Hr Hsub Hd) as E.
    split; [exact E|]. apply sent_by_published. rewrite E. reflexivity.
  - intros d Hd Hneg. unfold topic_prefix, get. rewrite Hd.
    destruct d as [| | z | f | | | | |]; try discriminate Hneg.
    + simpl in *. apply Z.ltb_lt in Hneg.
      destruct (Z.eqb_spec z 0); [lia|reflexivity].
    + destruct f as [| [] | | [] ? ?]; try discriminate Hneg; reflexivity.
Qed.
End NotifyTheorems.

(* ================================================================== *)
(** ** ZMQ_handler.emit *)

Example lower_WARNING : lower "WARNING" = "warning".
Proof. reflexivity. Qed.

Lemma lower_length (s : string) : String.length (lower s) = String.length s.
Proof. induction s as [|c s IH]; simpl; congruence. Qed.

Lemma lower_ascii_idempotent (c : ascii) :
  lower_ascii (lower_ascii c) = lower_ascii c.
Proof.
  unfold lower_ascii.
  destruct (Nat.leb 65 (nat_of_ascii c) && Nat.leb (nat_of_ascii c) 90) eqn:E.
  - apply andb_true_iff in E. destruct E as [E1 E2].
    apply Nat.leb_le in E1, E2.
    rewrite nat_ascii_embedding by lia.
    replace (Nat.leb (nat_of_ascii c + 32) 90) with false
      by (symmetry; apply Nat.leb_gt; lia).
    rewrite andb_false_r. reflexivity.
  - rewrite E. reflexivity.
Qed.

Lemma lower_idempotent (s : string) : lower (lower s) = lower s.
Proof.
  induction s as [|c s IH]; simpl; [reflexivity|].
  rewrite lower_ascii_idempotent, IH. reflexivity.
Qed.

(** C8, at the input where the code fails.  [emit] hands the record
    itself to the serializer.  A serializer with no encoding for plain
    objects (msgpack, which the module imports, has none) raises on it,
    and it does so after the topic frame has gone out with SNDMORE: for
    every log record with level name [L] the call raises, no message
    reaches the wire, and the frame ["logging."] followed by [L] in
    lower case stays staged on the socket. *)
Theorem emit_log_record_not_sent
    (serializer : Serializer) (str_other : value -> string)
    (cls : string) (attrs : dict) (L : string) (s : socket) :
  refuses_objects serializer ->
  ready s = true ->
  lookup "levelname" attrs = Some (VStr L) ->
  ZMQ_handler.emit serializer str_other (VObject cls attrs) s
    = Raise SerializerError (set_staged [("logging." ++ lower L)%string] s) /\
  sent_by (ZMQ_handler.emit serializer str_other (VObject cls attrs)) s = [].
Proof.
  intros Hobj Hr HL.
  assert (E : ZMQ_handler.emit serializer str_other (VObject cls attrs) s
              = Raise SerializerError
                      (set_staged [("logging." ++ lower L)%string] s)).
  { unfold ZMQ_handler.emit, bind, eval, getattr. rewrite HL. simpl.
    rewrite (send_unserializable serializer str_other _ _ s Hr (Hobj cls attrs)).
    reflexivity. }
  split; [exact E|]. apply sent_by_unchanged. rewrite E. reflexivity.
Qed.

(* ================================================================== *)
(** ** Dispatcher to receiver *)



Section ValueInduction.
Variable P : value -> Prop.
Hypothesis HNone : P VNone.
Hypothesis HBool : forall b, P (VBool b).
Hypothesis HInt : forall z, P (VInt z).
Hypothesis HFloat : forall f, P (VFloat f).
Hypothesis HStr : forall s, P (VStr s).
Hypothesis HTuple : forall items, Forall P items -> P (VTuple items).
Hypothesis HList : forall items, Forall P items -> P (VList items).
Hypothesis HDict :
  forall entries, Forall (fun kv => P (snd kv)) entries -> P (VDict entries).
Hypothesis HObject :
  forall cls attrs, Forall (fun kv => P (snd kv)) attrs -> P (VObject cls attrs).

End ValueInduction.





(* ================================================================== *)
(** ** Requester *)

Lemma recv_keeps_wire (noblock : bool) (s : socket) :
  wire_out (final_state (Zmq.recv noblock s)) = wire_out s.
Proof.
  unfold Zmq.recv.
  destruct (closed s); [reflexivity|].
  destruct (is_pub s); [reflexivity|].
  destruct (is_req s && negb (awaiting_reply s)); [reflexivity|].
  destruct (inbox s) as [|[frame more] rest]; [destruct noblock|]; reflexivity.
Qed.

Lemma send_idle (frame : bytes) (s : socket) :
  idle s = true -> Zmq.send frame false s = Ret tt (published [frame] s).
Proof.
  intros H. apply idle_inv in H. destruct H as (Hc & Ht & Ha & Hs).
  unfold Zmq.send. open_socket s. subst. reflexivity.
Qed.

Lemma send_multipart_idle (topic raw : bytes) (s : socket) :
  idle s = true ->
  send_multipart topic [raw] s = Ret tt (published [topic; raw] s).
Proof.
  intros H. apply idle_inv in H. destruct H as (Hc & Ht & Ha & Hs).
  unfold send_multipart, bind, Zmq.send. open_socket s. subst. reflexivity.
Qed.

Lemma published_awaiting (m : message) (s : socket) :
  idle s = true ->
  closed (published m s) = false /\ stype (published m s) = REQ /\
  awaiting_reply (published m s) = true /\ inbox (published m s) = inbox s.
Proof.
  intros H. apply idle_inv in H. destruct H as (Hc & Ht & Ha & Hs).
  open_socket s. subst. auto.
Qed.

Lemma send_cmd_step (cmd reply : bytes) (more : bool)
    (rest : list (bytes * bool)) (s : socket) :
  idle s = true ->
  inbox s = (reply, more) :: rest ->
  Requester.send_cmd cmd s
  = Ret reply (set_awaiting_reply more (set_inbox rest (published [cmd] s))).
Proof.
  intros Hi Hin. apply idle_inv in Hi. destruct Hi as (Hc & Ht & Ha & Hs).
  unfold Requester.send_cmd, bind, Zmq.send, Zmq.recv, is_sub, is_pub, is_req.
  open_socket s. subst. reflexivity.
Qed.

(** C6, as the code has it.  On an idle connection [send_cmd] sends the
    command as one message and waits for the reply: with none to come it
    never returns.  It reads one frame and returns it.  When the reply
    has that one frame it is the reply, nothing else is read and the
    connection is idle again; when the reply has more frames the call
    still returns, with the first frame only, and leaves the connection
    in the middle of the reply.  A request issued while a reply is
    outstanding, not yet received or only partly read, is refused by
    the socket ([EFSM], the protocol violation of the REQ pattern) and
    sends nothing. *)
Theorem send_cmd_returns_first_frame (cmd : bytes) (s : socket) :
  idle s = true ->
  sent_by (Requester.send_cmd cmd) s = [[cmd]] /\
  (inbox s = [] -> Requester.send_cmd cmd s = Block (published [cmd] s)) /\
  (forall first more rest,
     inbox s = (first, more) :: rest ->
     Requester.send_cmd cmd s
       = Ret first (set_awaiting_reply more
                      (set_inbox rest (published [cmd] s))) /\
     idle (set_awaiting_reply more (set_inbox rest (published [cmd] s)))
       = negb more) /\
  (forall cmd' rest,
     Requester.send_cmd cmd' (set_inbox rest (published [cmd] s))
       = Raise (ZMQError EFSM) (set_inbox rest (published [cmd] s)) /\
     sent_by (Requester.send_cmd cmd') (set_inbox rest (published [cmd] s))
       = []).
Proof.
  intros Hi.
  pose proof (send_idle cmd s Hi) as Es.
  pose proof (published_awaiting [cmd] s Hi) as (Pc & Pt & Pa & Pi).
  assert (Erun : Requester.send_cmd cmd s = Zmq.recv false (published [cmd] s)).
  { unfold Requester.send_cmd, bind. rewrite Es. reflexivity. }
  split; [|split; [|split]].
  - unfold sent_by. rewrite Erun, recv_keeps_wire, published_wire.
    apply skipn_app_exact.
  - intros Hin. rewrite Erun. unfold Zmq.recv, is_pub, is_req.
    rewrite Pc, Pt, Pa, Pi, Hin. reflexivity.
  - intros first more rest Hin. split.
    + apply (send_cmd_step cmd first more rest s Hi Hin).
    + apply idle_inv in Hi. destruct Hi as (Hc & Ht & Ha & Hs).
      open_socket s. subst. destruct more; reflexivity.
  - intros cmd' rest.
    assert (E : Requester.send_cmd cmd' (set_inbox rest (published [cmd] s))
                = Raise (ZMQError EFSM) (set_inbox rest (published [cmd] s))).
    { apply idle_inv in Hi. destruct Hi as (Hc & Ht & Ha & Hs).
      unfold Requester.send_cmd, bind, Zmq.send, is_sub, is_req.
      open_socket s. subst. reflexivity. }
    split; [exact E|]. apply sent_by_unchanged. rewrite E. reflexivity.
Qed.

(** C10.  On the request/reply path the topic does not depend on the
    delay: [Requester.notify] sends the notification as one two-frame
    message whose topic is ["notify."] followed by the subject, then
    waits for the reply, whatever the [delay] field holds. *)
Theorem requester_notify_ignores_delay
    (serializer : Serializer) (notification : dict) (subject : string)
    (raw : bytes) (s : socket) :
  idle s = true ->
  lookup "subject" notification = Some (VStr subject) ->
  dumps serializer (VDict notification) = Some raw ->
  Requester.notify serializer notification s
    = Zmq.recv false (published [("notify." ++ subject)%string; raw] s) /\
  sent_by (Requester.notify serializer notification) s
    = [[("notify." ++ subject)%string; raw]].
Proof.
  intros Hi Hsub Hd.
  assert (E : Requester.notify serializer notification s
              = Zmq.recv false (published [("notify." ++ subject)%string; raw] s)).
  { unfold Requester.notify, bind at 1 2 3, eval, getitem, serializer_dumps.
    rewrite Hsub. cbn [concat_str]. rewrite Hd. unfold bind.
    rewrite (send_multipart_idle _ raw s Hi). reflexivity. }
  split; [exact E|].
  unfold sent_by. rewrite E, recv_keeps_wire, published_wire.
  apply skipn_app_exact.
Qed.

(* ================================================================== *)
(** ** Construction *)

(** C7, as the code has it.  With blocking connect the constructor first
    attaches a monitor and calls [connect].  An endpoint the library does
    not take makes it raise [ZMQError] there and then, before any event
    is read.  Otherwise it is decided by the first monitor event other
    than [EVENT_CONNECT_DELAYED]: on [EVENT_CONNECTED] it returns, the
    monitor disabled; on any other event it raises [Exception("ZMQ
    connection failed")]; with no such event it waits for ever.  In none
    of these cases does it close the socket: after a failed construction
    the socket is still open, its monitor still attached. *)
Theorem init_blocks_until_connected
    (net : network) (t : socket_type) (url : string) (this : ZMQ_Actor.self) :
  ZMQ_Actor.__init__ net t url true this
  = match endpoint_error net url with
    | Some errno =>
        Raise (ZMQError errno) (Some (set_monitor (Some []) (Zmq.Socket t)))
    | None =>
        match first_decisive (events net) with
        | Some EVENT_CONNECTED => Ret tt (Some (connecting t url None))
        | Some _ => Raise (Exception_ "ZMQ connection failed")
                          (Some (connecting t url
                                   (Some (after_decisive (events net)))))
        | None => Block (Some (connecting t url (Some [])))
        end
    end
  /\ released (final_state (ZMQ_Actor.__init__ net t url true this)) = false.
Proof.
  rewrite init_blocking.
  destruct (endpoint_error net url) as [errno|]; [split; reflexivity|].
  destruct (first_decisive (events net)) as [[]|]; split; reflexivity.
Qed.

Lemma subscribe_each (ts : list string) (s : socket) :
  listening s = true ->
  for_each (map VStr ts)
           (fun t => ZMQ_Actor.on_socket (Msg_Receiver.subscribe t)) (Some s)
  = Ret tt (Some (set_subscriptions (subscriptions s ++ ts) s)).
Proof.
  revert s. induction ts as [|t ts IH]; intros s Hl.
  - simpl. rewrite app_nil_r. unfold ret. f_equal. f_equal.
    open_socket s. reflexivity.
  - pose proof (listening_inv s Hl) as [Hc Ht].
    cbn [map for_each]. unfold bind at 1.
    unfold ZMQ_Actor.on_socket at 1, Msg_Receiver.subscribe at 1, set_SUBSCRIBE.
    unfold is_sub. rewrite Hc, Ht. cbn [negb].
    rewrite IH.
    + f_equal. f_equal. open_socket s. rewrite <- app_assoc. reflexivity.
    + open_socket s. subst. reflexivity.
Qed.

Lemma receiver_init_sequence (net : network) (url : string) (b : bool)
    (this : ZMQ_Actor.self) (topics : value) (ts : list string) :
  iter topics = inr (map VStr ts) ->
  (forall t, topics <> VStr t) ->
  endpoint_error net url = None ->
  b = false \/ first_decisive (events net) = Some EVENT_CONNECTED ->
  Msg_Receiver.__init__ net url topics b this
  = Ret tt (Some (set_subscriptions ts (connecting SUB url None))).
Proof.
  intros Hiter Hns Hok Hconn.
  pose proof (init_returns net SUB url b this Hok Hconn) as Einit.
  assert (Ebody : Msg_Receiver.__init__ net url topics b this
                  = (ZMQ_Actor.__init__ net SUB url b ;;;
                     ts <- eval (iter topics) ;;
                     for_each ts (fun t => ZMQ_Actor.on_socket (Msg_Receiver.subscribe t)))
                    this).
  { destruct topics; try reflexivity. exfalso. eapply Hns. reflexivity. }
  rewrite Ebody. unfold bind at 1. rewrite Einit.
  unfold bind, eval. rewrite Hiter.
  rewrite subscribe_each by reflexivity. reflexivity.
Qed.

(** C9.  A string for [topics] is refused by the assertion, before
    anything is built: the object is left as found, without a socket.
    A tuple or list of topics is subscribed to element by element, in
    order, once the base constructor has returned (the endpoint taken by
    [connect], and then at once without blocking connect, on
    [EVENT_CONNECTED] with it). *)
Theorem receiver_init_topics
    (net : network) (url : string) (b : bool) (this : ZMQ_Actor.self) :
  (forall t, Msg_Receiver.__init__ net url (VStr t) b this
             = Raise AssertionError this) /\
  (forall ts topics,
     topics = VTuple (map VStr ts) \/ topics = VList (map VStr ts) ->
     endpoint_error net url = None ->
     b = false \/ first_decisive (events net) = Some EVENT_CONNECTED ->
     Msg_Receiver.__init__ net url topics b this
     = Ret tt (Some (set_subscriptions ts (connecting SUB url None))) /\
     subscriptions (set_subscriptions ts (connecting SUB url None)) = ts).
Proof.
  split.
  - intros t. reflexivity.
  - intros ts topics Htop Hok Hconn. split; [|reflexivity].
    apply receiver_init_sequence; auto.
    + destruct Htop as [-> | ->]; reflexivity.
    + intros t Heq. destruct Htop as [-> | ->]; discriminate Heq.
Qed.

(* ================================================================== *)
(** ** The theorems at work, and where the code departs from the design *)

Lemma notify_sends_immediately_witness :
  ready Demo.publisher = true /\
  exists topic,
    Msg_Dispatcher.notify Run.codec Demo.str_other Demo.A1 Demo.publisher
      = Ret tt (published [topic; Run.raw_of Demo.A1] Demo.publisher) /\
    sent_by (Msg_Dispatcher.notify Run.codec Demo.str_other Demo.A1) Demo.publisher
      = [[topic; Run.raw_of Demo.A1]] /\
    staged (published [topic; Run.raw_of Demo.A1] Demo.publisher) = [] /\
    inbox (published [topic; Run.raw_of Demo.A1] Demo.publisher)
      = inbox Demo.publisher.
Proof.
  split; [reflexivity|].
  apply (notify_sends_immediately Run.codec Demo.str_other Demo.A1 "A");
    reflexivity.
Defined.

Lemma notify_topic_by_delay_witness :
  sent_by (Msg_Dispatcher.notify Run.codec Demo.str_other Demo.ping) Demo.publisher
    = [["notify.pingback_test"; Run.raw_of Demo.ping]] /\
  sent_by (Msg_Dispatcher.notify Run.codec Demo.str_other Demo.A1) Demo.publisher
    = [["delayed_notify.A"; Run.raw_of Demo.A1]].
Proof.
  split.
  - apply (notify_topic_by_delay Run.codec Demo.str_other Demo.ping
             "pingback_test" (Run.raw_of Demo.ping) Demo.publisher);
      try reflexivity.
    left. reflexivity.
  - apply (notify_topic_by_delay Run.codec Demo.str_other Demo.A1
             "A" (Run.raw_of Demo.A1) Demo.publisher);
      reflexivity.
Defined.

Lemma notify_each_sends_each_witness :
  sent_by (notify_each Run.codec Demo.str_other Run.scenario) Demo.publisher
    = [["delayed_notify.A"; Run.raw_of Demo.A1];
       ["delayed_notify.A"; Run.raw_of Demo.A2]].
Proof.
  apply (notify_each_sends_each Run.codec Demo.str_other "A" Run.scenario
           [Run.raw_of Demo.A1; Run.raw_of Demo.A2] Demo.publisher).
  - reflexivity.
  - repeat constructor.
Defined.

(** C1 as written fails on the code.  The two notifications of the
    scenario share subject A and carry the positive delay 0.1; the
    dispatcher is ready.  Two messages reach the wire on
    [delayed_notify.A], the first already when the first call returns, so
    there is no single flush to speak of. *)
Lemma coalescing_counterexample :
  ready Demo.publisher = true /\
  Forall (fun n => lookup "subject" n = Some (VStr "A") /\
                   lookup "delay" n = Some (VFloat Demo.tenth)) Run.scenario /\
  sent_by (Msg_Dispatcher.notify Run.codec Demo.str_other Demo.A1) Demo.publisher
    = [["delayed_notify.A"; Run.raw_of Demo.A1]] /\
  on_topic "delayed_notify.A"
    (sent_by (notify_each Run.codec Demo.str_other Run.scenario) Demo.publisher)
    = [["delayed_notify.A"; Run.raw_of Demo.A1];
       ["delayed_notify.A"; Run.raw_of Demo.A2]] /\
  ~ single_flush Run.codec Demo.str_other Run.scenario "A" Demo.publisher.
Proof.
  split; [reflexivity|].
  split; [repeat constructor|].
  split; [reflexivity|].
  split; [reflexivity|].
  intros (raw & _ & H). vm_compute in H. discriminate H.
Qed.

Lemma notify_validates_nothing_witness :
  Msg_Dispatcher.notify Run.codec Demo.str_other Demo.nameless Demo.publisher
    = Ret tt (published ["notify."; Run.raw_of Demo.nameless] Demo.publisher) /\
  Msg_Dispatcher.notify Run.codec Demo.str_other Demo.overdue Demo.publisher
    = Ret tt (published ["delayed_notify.A"; Run.raw_of Demo.overdue] Demo.publisher) /\
  Msg_Dispatcher.notify Run.codec Demo.str_other [("v", VInt 1)] Demo.publisher
    = Raise (KeyError "subject") Demo.publisher.
Proof.
  split; [|split].
  - destruct (notify_validates_nothing Run.codec Demo.str_other Demo.nameless)
      as (_ & H & _).
    apply (H "" (Run.raw_of Demo.nameless) Demo.publisher); reflexivity.
  - destruct (notify_validates_nothing Run.codec Demo.str_other Demo.overdue)
      as (_ & H & _).
    apply (H "A" (Run.raw_of Demo.overdue) Demo.publisher); reflexivity.
  - destruct (notify_validates_nothing Run.codec Demo.str_other [("v", VInt 1)])
      as (H & _).
    apply (H Demo.publisher). reflexivity.
Defined.

(** C5 as written fails on the code.  A notification with an empty
    subject and one with a negative delay, both of which the notification
    model turns down, are accepted and sent. *)
Lemma validation_counterexample :
  invalid_notification Demo.nameless = true /\
  sent_by (Msg_Dispatcher.notify Run.codec Demo.str_other Demo.nameless)
          Demo.publisher
    = [["notify."; Run.raw_of Demo.nameless]] /\
  ~ rejected (Msg_Dispatcher.notify Run.codec Demo.str_other Demo.nameless)
             Demo.publisher /\
  invalid_notification Demo.overdue = true /\
  sent_by (Msg_Dispatcher.notify Run.codec Demo.str_other Demo.overdue)
          Demo.publisher
    = [["delayed_notify.A"; Run.raw_of Demo.overdue]] /\
  ~ rejected (Msg_Dispatcher.notify Run.codec Demo.str_other Demo.overdue)
             Demo.publisher.
Proof.
  split; [reflexivity|]. split; [reflexivity|]. split.
  { intros [_ H]. vm_compute in H. discriminate H. }
  split; [reflexivity|]. split; [reflexivity|].
  intros [_ H]. vm_compute in H. discriminate H.
Qed.

Lemma emit_log_record_not_sent_witness :
  refuses_objects Run.strict /\
  ZMQ_handler.emit Run.strict Demo.str_other Demo.warning Demo.publisher
    = Raise SerializerError (set_staged ["logging.warning"] Demo.publisher) /\
  sent_by (ZMQ_handler.emit Run.strict Demo.str_other Demo.warning)
          Demo.publisher = [].
Proof.
  assert (Hobj : refuses_objects Run.strict) by (intros cls attrs; reflexivity).
  split; [exact Hobj|].
  apply (emit_log_record_not_sent Run.strict Demo.str_other "LogRecord"
           [("levelname", VStr "WARNING"); ("msg", VStr "low battery")]
           "WARNING" Demo.publisher Hobj); reflexivity.
Defined.



Lemma send_cmd_returns_first_frame_witness :
  idle (deliver ["1.5"] Demo.remote) = true /\
  Requester.send_cmd "t" (deliver ["1.5"] Demo.remote)
    = Ret "1.5" (set_awaiting_reply false (published ["t"] Demo.remote)) /\
  Requester.send_cmd "t" Demo.remote = Block (published ["t"] Demo.remote) /\
  Requester.send_cmd "t" (published ["t"] Demo.remote)
    = Raise (ZMQError EFSM) (published ["t"] Demo.remote).
Proof.
  split; [reflexivity|]. split; [|split].
  - destruct (send_cmd_returns_first_frame "t" (deliver ["1.5"] Demo.remote)
                eq_refl) as (_ & _ & H & _).
    destruct (H "1.5" false [] eq_refl) as [E _]. exact E.
  - destruct (send_cmd_returns_first_frame "t" Demo.remote eq_refl)
      as (_ & H & _).
    apply H. reflexivity.
  - destruct (send_cmd_returns_first_frame "t" Demo.remote eq_refl)
      as (_ & _ & _ & H).
    destruct (H "t" []) as [E _]. exact E.
Defined.

(** C6 as written fails on the code.  The reply to the request has two
    frames.  [send_cmd] returns, with the first frame only; the second
    stays queued, the connection is not idle, and the next request is
    refused although the first call has returned. *)
Lemma partial_reply_counterexample :
  idle (deliver ["50020"; "ok"] Demo.remote) = true /\
  Requester.send_cmd "SUB_PORT" (deliver ["50020"; "ok"] Demo.remote)
    = Ret "50020" (set_inbox [("ok", false)] (published ["SUB_PORT"] Demo.remote)) /\
  idle (set_inbox [("ok", false)] (published ["SUB_PORT"] Demo.remote)) = false /\
  Requester.send_cmd "PUB_PORT"
    (set_inbox [("ok", false)] (published ["SUB_PORT"] Demo.remote))
    = Raise (ZMQError EFSM)
            (set_inbox [("ok", false)] (published ["SUB_PORT"] Demo.remote)).
Proof.
  repeat split.
Qed.

Lemma requester_notify_ignores_delay_witness :
  truthy (get Demo.A1 "delay" (VInt 0)) = true /\
  sent_by (Requester.notify Run.codec Demo.A1) Demo.remote
    = [["notify.A"; Run.raw_of Demo.A1]].
Proof.
  split; [reflexivity|].
  apply (requester_notify_ignores_delay Run.codec Demo.A1 "A"
           (Run.raw_of Demo.A1) Demo.remote);
    reflexivity.
Defined.

(** C7 as written fails on the code.  When the connection attempt is
    reported closed the constructor raises and leaves the socket open;
    so it does when the endpoint is malformed; and when no settling
    event comes it neither returns nor fails. *)
Lemma init_failure_counterexample :
  (exists s,
     ZMQ_Actor.__init__ (Run.tcp_only [EVENT_CONNECT_DELAYED; EVENT_CLOSED])
                        PUB Run.url true None
       = Raise (Exception_ "ZMQ connection failed") (Some s) /\
     closed s = false) /\
  ~ scoped_acquisition
      (ZMQ_Actor.__init__ (Run.tcp_only [EVENT_CONNECT_DELAYED; EVENT_CLOSED])
                          PUB Run.url true None) /\
  ~ scoped_acquisition
      (ZMQ_Actor.__init__ (Run.tcp_only [EVENT_CONNECTED]) PUB "localhost"
                          true None) /\
  ~ scoped_acquisition
      (ZMQ_Actor.__init__ (Run.tcp_only [EVENT_CONNECT_DELAYED]) PUB Run.url
                          true None).
Proof.
  split; [|split; [|split]].
  - eexists. split; reflexivity.
  - intros H. vm_compute in H. discriminate H.
  - intros H. vm_compute in H. discriminate H.
  - intros H. vm_compute in H. exact H.
Qed.

Lemma receiver_init_topics_witness :
  Msg_Receiver.__init__ (Run.tcp_only [EVENT_CONNECT_DELAYED; EVENT_CONNECTED])
    Run.url (VTuple [VStr "notify."; VStr "logging."]) true None
    = Ret tt (Some (set_subscriptions ["notify."; "logging."]
                      (connecting SUB Run.url None))) /\
  Msg_Receiver.__init__ (Run.tcp_only [EVENT_CONNECT_DELAYED; EVENT_CONNECTED])
    Run.url (VStr "notify.") true None
    = Raise AssertionError None.
Proof.
  destruct (receiver_init_topics
              (Run.tcp_only [EVENT_CONNECT_DELAYED; EVENT_CONNECTED])
              Run.url true None) as [Hstr Hseq].
  split.
  - apply (Hseq ["notify."; "logging."]).
    + left. reflexivity.
    + reflexivity.
    + right. reflexivity.
  - apply Hstr.
Defined.

(* ================================================================== *)
(** ** Further properties: the dispatcher *)

Section DispatcherMore.
Variable serializer : Serializer.
Variable str_other : value -> string.

(** On any open PUB socket a send whose payload serializes completes the
    message under construction, whatever was staged before. *)
Lemma send_open (topic payload : value) (raw : bytes) (s : socket) :
  closed s = false -> stype s = PUB ->
  dumps serializer payload = Some raw ->
  Msg_Dispatcher.send serializer str_other topic payload s
  = Ret tt (published (staged s ++ [str str_other topic; raw]) s).
Proof.
  intros Hc Ht Hd.
  unfold Msg_Dispatcher.send, bind, Zmq.send, eval, serializer_dumps.
  open_socket s. subst. simpl. rewrite Hd. simpl.
  unfold published. simpl. rewrite <- app_assoc. reflexivity.
Qed.

(** X1.  [send] sends the topic frame before it serializes the payload.  When
    the payload does not serialize, the call raises with nothing on the
    wire but the topic frame staged; the next send that succeeds then
    puts out one three-frame message that starts with the stale topic. *)
Theorem failed_send_taints_next
    (t1 p1 t2 p2 : value) (raw : bytes) (s : socket) :
  ready s = true ->
  dumps serializer p1 = None ->
  dumps serializer p2 = Some raw ->
  Msg_Dispatcher.send serializer str_other t1 p1 s
    = Raise SerializerError (set_staged [str str_other t1] s) /\
  sent_by (Msg_Dispatcher.send serializer str_other t1 p1) s = [] /\
  Msg_Dispatcher.send serializer str_other t2 p2
      (set_staged [str str_other t1] s)
    = Ret tt (published [str str_other t1; str str_other t2; raw]
                        (set_staged [str str_other t1] s)) /\
  sent_by (Msg_Dispatcher.send serializer str_other t2 p2)
          (set_staged [str str_other t1] s)
    = [[str str_other t1; str str_other t2; raw]].
Proof.
  intros Hr Hd1 Hd2.
  pose proof (send_unserializable serializer str_other t1 p1 s Hr Hd1) as E1.
  apply ready_inv in Hr. destruct Hr as (Hc & Ht & Hs).
  assert (E2 : Msg_Dispatcher.send serializer str_other t2 p2
                 (set_staged [str str_other t1] s)
               = Ret tt (published [str str_other t1; str str_other t2; raw]
                                   (set_staged [str str_other t1] s))).
  { rewrite (send_open t2 p2 raw); auto. }
  split; [exact E1|]. split.
  { apply sent_by_unchanged. rewrite E1. reflexivity. }
  split; [exact E2|].
  apply sent_by_published. rewrite E2. reflexivity.
Qed.

Lemma appends_nothing (s : socket) : appends_at_most_one s s.
Proof.
  repeat split. exists []. rewrite app_nil_r. split; [reflexivity|simpl; lia].
Qed.

Lemma send_appends (topic payload : value) (s : socket) :
  appends_at_most_one s
    (final_state (Msg_Dispatcher.send serializer str_other topic payload s)).
Proof.
  unfold Msg_Dispatcher.send, bind, Zmq.send, eval, serializer_dumps,
    is_sub, is_req.
  open_socket s.
  destruct cl; [apply appends_nothing|].
  destruct ty; simpl; try apply appends_nothing.
  - destruct (dumps serializer payload) as [raw|]; simpl.
    + unfold appends_at_most_one; simpl. repeat (split; [reflexivity|]).
      eexists. split; [reflexivity|simpl; lia].
    + unfold appends_at_most_one; simpl. repeat (split; [reflexivity|]).
      exists []. rewrite app_nil_r. split; [reflexivity|simpl; lia].
  - destruct awt; simpl; [apply appends_nothing|].
    destruct (dumps serializer payload) as [raw|]; simpl.
    + unfold appends_at_most_one; simpl. repeat (split; [reflexivity|]).
      eexists. split; [reflexivity|simpl; lia].
    + unfold appends_at_most_one; simpl. repeat (split; [reflexivity|]).
      exists []. rewrite app_nil_r. split; [reflexivity|simpl; lia].
Qed.

(** X2.  Whatever the notification and whatever the state of the socket,
    [notify] never touches the messages already sent, the subscriptions
    or the incoming side, and puts at most one message on the wire,
    whether it returns or raises. *)
Theorem notify_appends_at_most_one (notification : dict) (s : socket) :
  appends_at_most_one s
    (final_state (Msg_Dispatcher.notify serializer str_other notification s)).
Proof.
  unfold Msg_Dispatcher.notify.
  destruct (truthy (get notification "delay" (VInt 0)));
    unfold bind at 1; unfold eval at 1;
    (destruct (getitem notification "subject") as [e|subject];
     [apply appends_nothing|]);
    unfold bind at 1; unfold eval at 1;
    (destruct (format_s str_other _ subject) as [e|topic];
     [apply appends_nothing|]);
    apply send_appends.
Qed.

(** X3.  The subject is formatted with [%s], so it need not be a string: an
    integer subject goes out in decimal and a one-element tuple as its
    element, while any other tuple is refused with [TypeError] before
    anything is sent. *)
Theorem notify_formats_subject (notification : dict) (s : socket) :
  (forall items,
     lookup "subject" notification = Some (VTuple items) ->
     List.length items <> 1 ->
     Msg_Dispatcher.notify serializer str_other notification s
       = Raise TypeError s) /\
  (forall x raw,
     lookup "subject" notification = Some (VTuple [VStr x]) ->
     ready s = true ->
     dumps serializer (VDict notification) = Some raw ->
     Msg_Dispatcher.notify serializer str_other notification s
       = Ret tt (published [(topic_prefix notification ++ x)%string; raw] s)) /\
  (forall z raw,
     lookup "subject" notification = Some (VInt z) ->
     ready s = true ->
     dumps serializer (VDict notification) = Some raw ->
     Msg_Dispatcher.notify serializer str_other notification s
       = Ret tt (published
                   [(topic_prefix notification
                       ++ NilZero.string_of_int (Z.to_int z))%string; raw] s)).
Proof.
  split; [|split].
  - intros items Hsub Hlen.
    unfold Msg_Dispatcher.notify, bind, eval, getitem. rewrite Hsub.
    destruct items as [|x [|y rest]]; simpl in Hlen; try lia;
      destruct (truthy _); reflexivity.
  - intros x raw Hsub Hr Hd.
    unfold Msg_Dispatcher.notify, topic_prefix.
    destruct (truthy (get notification "delay" (VInt 0)));
      unfold bind, eval, getitem; rewrite Hsub; simpl;
      rewrite (send_ready serializer str_other _ _ raw s Hr Hd); reflexivity.
  - intros z raw Hsub Hr Hd.
    unfold Msg_Dispatcher.notify, topic_prefix.
    destruct (truthy (get notification "delay" (VInt 0)));
      unfold bind, eval, getitem; rewrite Hsub; simpl;
      rewrite (send_ready serializer str_other _ _ raw s Hr Hd); reflexivity.
Qed.

(** X4.  [emit] fails in two ways.  A record without a [levelname] attribute
    raises [AttributeError] and changes nothing.  A record the serializer
    refuses raises after the topic frame was sent with SNDMORE: nothing
    reaches the wire and the frame stays staged. *)
Theorem emit_failure_modes (record : value) (s : socket) :
  (forall e, getattr record "levelname" = inl e ->
     ZMQ_handler.emit serializer str_other record s = Raise e s) /\
  (forall L,
     getattr record "levelname" = inr (VStr L) ->
     ready s = true ->
     dumps serializer record = None ->
     ZMQ_handler.emit serializer str_other record s
       = Raise SerializerError (set_staged [("logging." ++ lower L)%string] s) /\
     sent_by (ZMQ_handler.emit serializer str_other record) s = []).
Proof.
  split.
  - intros e He. unfold ZMQ_handler.emit, bind, eval. rewrite He. reflexivity.
  - intros L HL Hr Hd.
    assert (E : ZMQ_handler.emit serializer str_other record s
                = Raise SerializerError
                        (set_staged [("logging." ++ lower L)%string] s)).
    { unfold ZMQ_handler.emit, bind, eval. rewrite HL. simpl.
      rewrite (send_unserializable serializer str_other _ _ s Hr Hd).
      reflexivity. }
    split; [exact E|]. apply sent_by_unchanged. rewrite E. reflexivity.
Qed.
End DispatcherMore.

(* ================================================================== *)
(** ** Further properties: the receiver *)

Lemma set_inbox_same (s : socket) (i : list (bytes * bool)) :
  inbox s = i -> set_inbox i s = s.
Proof. intros <-. open_socket s. reflexivity. Qed.

Lemma recv_frame_listening (noblock : bool) (s : socket)
    (frame : bytes) (more : bool) (rest : list (bytes * bool)) :
  listening s = true ->
  inbox s = (frame, more) :: rest ->
  Zmq.recv noblock s = Ret frame (set_inbox rest s) /\
  listening (set_inbox rest s) = true.
Proof.
  intros Hl Hin. apply listening_inv in Hl. destruct Hl as [Hc Ht].
  unfold Zmq.recv, is_pub, is_req. open_socket s. subst. simpl.
  split; [|reflexivity]. destruct awt; reflexivity.
Qed.

Lemma recv_none_listening (noblock : bool) (s : socket) :
  listening s = true ->
  inbox s = [] ->
  Zmq.recv noblock s
  = if noblock then Raise (ZMQError EAGAIN) s else Block s.
Proof.
  intros Hl Hin. apply listening_inv in Hl. destruct Hl as [Hc Ht].
  unfold Zmq.recv, is_pub, is_req. open_socket s. subst. reflexivity.
Qed.

Section ReceiverMore.
Variable serializer : Serializer.

Lemma recv_two (noblock : bool) (s : socket) (f1 f2 : bytes) (m1 m2 : bool)
    (rest : list (bytes * bool)) :
  listening s = true ->
  inbox s = (f1, m1) :: (f2, m2) :: rest ->
  Msg_Receiver.recv serializer noblock s
  = match loads serializer f2 with
    | Some payload => Ret (f1, payload) (set_inbox rest s)
    | None => Raise SerializerError (set_inbox rest s)
    end.
Proof.
  intros Hl Hin.
  destruct (recv_frame_listening noblock s f1 m1 _ Hl Hin) as [E1 Hl1].
  destruct (recv_frame_listening noblock (set_inbox ((f2, m2) :: rest) s)
              f2 m2 rest Hl1 eq_refl) as [E2 _].
  unfold Msg_Receiver.recv, bind. rewrite E1, E2.
  unfold eval, serializer_loads.
  destruct (loads serializer f2); reflexivity.
Qed.

(** X5.  [recv] reads the next two frames, whatever messages they belong to
    (it never looks at RCVMORE): the first is returned as the topic, the
    second is decoded as the payload.  So after a one-frame message the
    payload is taken from the first frame of the message that follows.
    When the second frame does not decode the call raises and both
    frames are gone. *)
Theorem recv_takes_two_frames
    (noblock : bool) (s : socket) (f1 f2 : bytes) (m1 m2 : bool)
    (rest : list (bytes * bool)) :
  listening s = true ->
  inbox s = (f1, m1) :: (f2, m2) :: rest ->
  Msg_Receiver.recv serializer noblock s
  = match loads serializer f2 with
    | Some payload => Ret (f1, payload) (set_inbox rest s)
    | None => Raise SerializerError (set_inbox rest s)
    end.
Proof.
  intros Hl Hin. rewrite (recv_two noblock s f1 f2 m1 m2 rest Hl Hin).
  destruct (loads serializer f2); reflexivity.
Qed.

(** X6.  With fewer than two frames queued [recv] does not return.  On an
    empty queue it blocks, or raises [EAGAIN] under NOBLOCK, and changes
    nothing; with a single frame queued it does the same after having
    taken that frame, which is lost. *)
Theorem recv_short_queue (noblock : bool) (s : socket) :
  listening s = true ->
  (inbox s = [] ->
     Msg_Receiver.recv serializer noblock s
     = if noblock then Raise (ZMQError EAGAIN) s else Block s) /\
  (forall f m,
     inbox s = [(f, m)] ->
     Msg_Receiver.recv serializer noblock s
     = if noblock then Raise (ZMQError EAGAIN) (set_inbox [] s)
       else Block (set_inbox [] s)).
Proof.
  intros Hl. split.
  - intros Hin. unfold Msg_Receiver.recv, bind.
    rewrite (recv_none_listening noblock s Hl Hin).
    destruct noblock; reflexivity.
  - intros f m Hin.
    destruct (recv_frame_listening noblock s f m _ Hl Hin) as [E1 Hl1].
    unfold Msg_Receiver.recv, bind. rewrite E1.
    rewrite (recv_none_listening noblock _ Hl1 eq_refl).
    destruct noblock; reflexivity.
Qed.

Lemma deliver_matching (topic raw : bytes) (s : socket) :
  listening s = true ->
  existsb (fun p => String.prefix p topic) (subscriptions s) = true ->
  deliver [topic; raw] s = set_inbox (inbox s ++ two_frames topic raw) s /\
  listening (deliver [topic; raw] s) = true /\
  subscriptions (deliver [topic; raw] s) = subscriptions s.
Proof.
  intros Hl Hm. apply listening_inv in Hl. destruct Hl as [Hc Ht].
  unfold deliver, matches. rewrite Ht, Hm.
  open_socket s. subst. repeat split.
Qed.

(** The queue after a run of two-frame messages that all match. *)
Lemma deliver_all_matching (items : list (bytes * value * bytes)) (s : socket) :
  listening s = true ->
  Forall (fun i =>
            existsb (fun p => String.prefix p (fst (fst i))) (subscriptions s)
            = true) items ->
  deliver_all (map (fun i => [fst (fst i); snd i]) items) s
  = set_inbox (inbox s ++ flat_map (fun i => two_frames (fst (fst i)) (snd i)) items) s.
Proof.
  intros Hl Hall. revert s Hl Hall.
  induction items as [|[[t p] raw] items IH]; intros s Hl Hall.
  - simpl. rewrite app_nil_r. symmetry. apply set_inbox_same. reflexivity.
  - inversion Hall as [|? ? Hm Hrest]; subst. simpl in Hm.
    destruct (deliver_matching t raw s Hl Hm) as (Ed & Hl' & Hs').
    unfold deliver_all in *. cbn [map fold_left fst snd].
    rewrite IH; [|exact Hl'|rewrite Hs'; exact Hrest].
    rewrite Ed. cbn [flat_map fst snd].
    open_socket s. rewrite <- app_assoc. reflexivity.
Qed.

Lemma recv_n_queue (items : list (bytes * value * bytes)) (s : socket) :
  listening s = true ->
  Forall (fun i => loads serializer (snd i) = Some (snd (fst i))) items ->
  inbox s = flat_map (fun i => two_frames (fst (fst i)) (snd i)) items ->
  recv_n serializer (List.length items) s
  = Ret (map fst items) (set_inbox [] s).
Proof.
  revert s. induction items as [|[[t p] raw] items IH]; intros s Hl Hall Hin.
  - simpl. unfold ret. rewrite set_inbox_same; auto.
  - inversion Hall as [|? ? Hload Hrest]; subst. simpl in Hload.
    cbn [List.length recv_n]. unfold bind at 1.
    rewrite (recv_two false s t raw true false _ Hl Hin).
    rewrite Hload. unfold bind at 1.
    rewrite IH; [reflexivity| |exact Hrest|reflexivity].
    apply listening_inv in Hl. destruct Hl as [Hc Ht].
    open_socket s. subst. reflexivity.
Qed.

(** X7.  Messages come out in the order they went in.  When a run of
    two-frame messages that all match a subscription is handed to a
    receiver with an empty queue, as many [recv] calls return their
    topics and payloads in order and leave the queue empty. *)
Theorem recv_in_order (items : list (bytes * value * bytes)) (s : socket) :
  listening s = true ->
  inbox s = [] ->
  Forall (fun i =>
            existsb (fun p => String.prefix p (fst (fst i))) (subscriptions s)
            = true /\
            loads serializer (snd i) = Some (snd (fst i))) items ->
  recv_n serializer (List.length items)
    (deliver_all (map (fun i => [fst (fst i); snd i]) items) s)
  = Ret (map fst items) s.
Proof.
  intros Hl Hin Hall.
  assert (Hm : Forall (fun i =>
            existsb (fun p => String.prefix p (fst (fst i))) (subscriptions s)
            = true) items)
    by (eapply Forall_impl; [|exact Hall]; intros i [H _]; exact H).
  assert (Hd : Forall (fun i => loads serializer (snd i) = Some (snd (fst i))) items)
    by (eapply Forall_impl; [|exact Hall]; intros i [_ H]; exact H).
  rewrite (deliver_all_matching items s Hl Hm), Hin. cbn [app].
  rewrite (recv_n_queue items); [| |exact Hd|reflexivity].
  - f_equal. open_socket s. subst. reflexivity.
  - apply listening_inv in Hl. destruct Hl as [Hc Ht].
    open_socket s. subst. reflexivity.
Qed.
End ReceiverMore.

Lemma for_each_app {S A} (xs ys : list A) (body : A -> M S unit) (s : S) :
  for_each (xs ++ ys) body s
  = bind (for_each xs body) (fun _ => for_each ys body) s.
Proof.
  revert s. induction xs as [|x xs IH]; intros s; simpl.
  - reflexivity.
  - unfold bind. destruct (body x s) as [[] s'| |]; try reflexivity.
    rewrite IH. reflexivity.
Qed.

Section MonitorMore.
Variable serializer : Serializer.
Variable str_other : value -> string.

(** X8.  A monitor subscribed to ["notify."], as the module's script sets one
    up, gets back every notification sent without a delay and none sent
    with one: the topic [delayed_notify.<subject>] does not start with
    ["notify."], so nothing is queued and [recv] keeps waiting. *)
Theorem notify_monitor_misses_delayed
    (notification : dict) (subject : string) (raw : bytes) (pub sub : socket) :
  ready pub = true ->
  listening sub = true ->
  inbox sub = [] ->
  subscriptions sub = ["notify."] ->
  lookup "subject" notification = Some (VStr subject) ->
  dumps serializer (VDict notification) = Some raw ->
  loads serializer raw = Some (VDict notification) ->
  (truthy (get notification "delay" (VInt 0)) = false ->
     Msg_Receiver.recv serializer false
       (deliver_all
          (sent_by (Msg_Dispatcher.notify serializer str_other notification) pub)
          sub)
     = Ret (("notify." ++ subject)%string, VDict notification) sub) /\
  (truthy (get notification "delay" (VInt 0)) = true ->
     deliver_all
       (sent_by (Msg_Dispatcher.notify serializer str_other notification) pub)
       sub = sub /\
     Msg_Receiver.recv serializer false sub = Block sub).
Proof.
  intros Hr Hl Hin Hsubs Hsub Hd Hload.
  pose proof (notify_ready serializer str_other _ _ _ _ Hr Hsub Hd) as E.
  rewrite (sent_by_published _ pub _ (f_equal final_state E)).
  pose proof (listening_inv sub Hl) as [Hc Ht].
  unfold topic_prefix. split; intros Hdel; rewrite Hdel.
  - assert (Hm : existsb (fun p => String.prefix p ("notify." ++ subject)%string)
                         (subscriptions sub) = true).
    { rewrite Hsubs. simpl. destruct subject; reflexivity. }
    destruct (deliver_matching _ raw sub Hl Hm) as (Ed & Hl' & _).
    match goal with
    | |- Msg_Receiver.recv _ _ ?x = _ =>
        replace x with (set_inbox (inbox sub ++ two_frames ("notify." ++ subject)%string raw) sub)
          by (symmetry; exact Ed)
    end.
    rewrite Hin. cbn [app two_frames].
    rewrite (recv_two serializer false _ ("notify." ++ subject)%string raw
               true false []);
      [|open_socket sub; subst; reflexivity|reflexivity].
    rewrite Hload. f_equal. open_socket sub. subst. reflexivity.
  - split.
    + unfold deliver_all. cbn [fold_left]. unfold deliver, matches.
      rewrite Ht, Hsubs. reflexivity.
    + unfold Msg_Receiver.recv, bind.
      rewrite (recv_none_listening false sub Hl Hin). reflexivity.
Qed.

End MonitorMore.

(** X12.  The assertion of [Msg_Receiver.__init__] guards against [str] only.
    A [topics] that cannot be iterated, or one holding an element that
    is no string, is found out after the socket was created and
    connected: [TypeError] is raised with the socket left open, and the
    topics before the offending element stay subscribed. *)
Theorem receiver_init_bad_topics
    (net : network) (url : string) (b : bool) (this : ZMQ_Actor.self) :
  endpoint_error net url = None ->
  b = false \/ first_decisive (events net) = Some EVENT_CONNECTED ->
  (forall topics,
     iter topics = inl TypeError ->
     Msg_Receiver.__init__ net url topics b this
     = Raise TypeError (Some (connecting SUB url None))) /\
  (forall ts bad rest,
     (forall x, bad <> VStr x) ->
     Msg_Receiver.__init__ net url (VTuple (map VStr ts ++ bad :: rest)) b this
     = Raise TypeError (Some (set_subscriptions ts (connecting SUB url None)))).
Proof.
  intros Hok Hconn.
  pose proof (init_returns net SUB url b this Hok Hconn) as Einit.
  split.
  - intros topics Hiter.
    destruct topics; try discriminate Hiter;
      unfold Msg_Receiver.__init__; unfold bind at 1; rewrite Einit;
      reflexivity.
  - intros ts bad rest Hbad.
    unfold Msg_Receiver.__init__. unfold bind at 1. rewrite Einit.
    unfold bind at 1. unfold eval at 1. cbn [iter].
    rewrite for_each_app. unfold bind at 1.
    rewrite subscribe_each by reflexivity.
    cbn [for_each]. unfold bind at 1.
    unfold ZMQ_Actor.on_socket, Msg_Receiver.subscribe, set_SUBSCRIBE.
    cbn [closed set_subscriptions connecting is_sub stype negb subscriptions app].
    destruct bad; try reflexivity. exfalso. eapply Hbad. reflexivity.
Qed.

(* ================================================================== *)
(** ** Further properties: the requester *)

(** X13.  [Requester.notify] builds topic and payload before it sends.  A
    missing subject ([KeyError]), a subject that is no string
    ([TypeError], from the concatenation) and a notification that does
    not serialize all raise with the socket exactly as it was: nothing
    is sent or staged, and the connection can be used again. *)
Theorem requester_notify_fails_clean
    (serializer : Serializer) (notification : dict) (s : socket) :
  (lookup "subject" notification = None ->
     Requester.notify serializer notification s
     = Raise (KeyError "subject") s) /\
  (forall v, lookup "subject" notification = Some v ->
     (forall x, v <> VStr x) ->
     Requester.notify serializer notification s = Raise TypeError s) /\
  (forall x, lookup "subject" notification = Some (VStr x) ->
     dumps serializer (VDict notification) = None ->
     Requester.notify serializer notification s = Raise SerializerError s).
Proof.
  split; [|split].
  - intros Hnone. unfold Requester.notify, bind, eval, getitem.
    rewrite Hnone. reflexivity.
  - intros v Hv Hns. unfold Requester.notify, bind, eval, getitem.
    rewrite Hv. destruct v; try reflexivity. exfalso. eapply Hns. reflexivity.
  - intros x Hx Hd.
    unfold Requester.notify, bind, eval, getitem, serializer_dumps.
    rewrite Hx. cbn [concat_str]. rewrite Hd. reflexivity.
Qed.

(** X15.  [send_cmd] reads one frame.  When the reply has more, it returns
    the first frame and leaves the socket in the middle of that reply:
    the next [send_cmd] is refused with [EFSM] and sends nothing. *)
Theorem send_cmd_reads_one_frame
    (cmd cmd' first : bytes) (rest : list (bytes * bool)) (s : socket) :
  idle s = true ->
  inbox s = (first, true) :: rest ->
  Requester.send_cmd cmd s
    = Ret first (set_inbox rest (published [cmd] s)) /\
  Requester.send_cmd cmd' (set_inbox rest (published [cmd] s))
    = Raise (ZMQError EFSM) (set_inbox rest (published [cmd] s)) /\
  wire_out (set_inbox rest (published [cmd] s)) = wire_out s ++ [[cmd]].
Proof.
  intros Hi Hin.
  pose proof (send_cmd_step cmd first true rest s Hi Hin) as E.
  apply idle_inv in Hi. destruct Hi as (Hc & Ht & Ha & Hs).
  split; [|split].
  - rewrite E. open_socket s. subst. reflexivity.
  - unfold Requester.send_cmd, bind, Zmq.send, is_sub, is_req.
    open_socket s. subst. reflexivity.
  - reflexivity.
Qed.

(** X16.  Requests and replies alternate.  On an idle connection, a run of
    [send_cmd] calls answered by as many one-frame replies returns the
    replies in order, puts each command on the wire as a message of its
    own, in order, and leaves the connection idle. *)
Theorem send_cmds_in_order (cmds replies : list bytes) (s : socket) :
  idle s = true ->
  List.length cmds = List.length replies ->
  inbox s = map (fun r => (r, false)) replies ->
  exists s',
    send_cmds cmds s = Ret replies s' /\
    wire_out s' = wire_out s ++ map (fun c => [c]) cmds /\
    inbox s' = [] /\
    idle s' = true.
Proof.
  revert replies s. induction cmds as [|c cmds IH]; intros replies s Hi Hlen Hin.
  - destruct replies; [|discriminate Hlen]. exists s. simpl.
    rewrite app_nil_r. auto.
  - destruct replies as [|r replies]; [discriminate Hlen|].
    simpl in Hlen, Hin. injection Hlen as Hlen.
    pose proof (send_cmd_step c r false _ s Hi Hin) as E.
    set (s1 := set_awaiting_reply false
                 (set_inbox (map (fun r => (r, false)) replies) (published [c] s))) in *.
    assert (Hi1 : idle s1 = true).
    { apply idle_inv in Hi. destruct Hi as (Hc & Ht & Ha & Hs).
      subst s1. open_socket s. subst. reflexivity. }
    destruct (IH replies s1 Hi1 Hlen eq_refl) as (s' & Erun & Hw & Hin' & Hi').
    exists s'. cbn [send_cmds]. unfold bind at 1. rewrite E.
    unfold bind at 1. rewrite Erun. split; [reflexivity|].
    split; [|auto]. rewrite Hw. subst s1. cbn [map].
    change (wire_out _) with (wire_out s ++ [[c]]) at 1.
    rewrite <- app_assoc. reflexivity.
Qed.

(* ================================================================== *)
(** ** Further properties: closing and construction *)

(** [__del__] closes the socket, and on a closed socket every method
    raises [ENOTSOCK] and leaves the state as it was. *)
Lemma closed_socket_refuses
    (serializer : Serializer) (str_other : value -> string) (s : socket) :
  Msg_Dispatcher.__del__ s = Ret tt (set_closed true s) /\
  Msg_Receiver.__del__ (set_closed true s) = Ret tt (set_closed true s) /\
  (forall topic payload,
     Msg_Dispatcher.send serializer str_other topic payload (set_closed true s)
     = Raise (ZMQError ENOTSOCK) (set_closed true s)) /\
  (forall noblock,
     Msg_Receiver.recv serializer noblock (set_closed true s)
     = Raise (ZMQError ENOTSOCK) (set_closed true s)) /\
  (forall cmd,
     Requester.send_cmd cmd (set_closed true s)
     = Raise (ZMQError ENOTSOCK) (set_closed true s)) /\
  (forall topic,
     Msg_Receiver.subscribe topic (set_closed true s)
     = Raise (ZMQError ENOTSOCK) (set_closed true s)).
Proof.
  repeat split; intros; reflexivity.
Qed.

(** X17.  Once [__del__] has run the dispatcher sends nothing more: any run of
    [notify] calls stops at the first one, which raises, and the socket,
    the wire included, stays as [__del__] left it. *)
Theorem closed_dispatcher_never_sends
    (serializer : Serializer) (str_other : value -> string)
    (notifications : list dict) (s : socket) :
  notifications <> [] ->
  (exists e,
     notify_each serializer str_other notifications
       (final_state (Msg_Dispatcher.__del__ s))
     = Raise e (set_closed true s)) /\
  sent_by (notify_each serializer str_other notifications)
          (final_state (Msg_Dispatcher.__del__ s)) = [].
Proof.
  intros Hne. destruct notifications as [|n ns]; [contradiction|].
  assert (E : exists e,
             notify_each serializer str_other (n :: ns) (set_closed true s)
             = Raise e (set_closed true s)).
  { unfold notify_each. cbn [for_each]. unfold bind at 1.
    unfold Msg_Dispatcher.notify.
    destruct (truthy (get n "delay" (VInt 0)));
      unfold bind at 1; unfold eval at 1;
      (destruct (getitem n "subject") as [e|subject]; [exists e; reflexivity|]);
      unfold bind at 1; unfold eval at 1;
      (destruct (format_s str_other _ subject) as [e|topic];
       [exists e; reflexivity|]);
      exists (ZMQError ENOTSOCK); reflexivity. }
  cbn [Msg_Dispatcher.__del__ Zmq.close final_state].
  split; [exact E|].
  destruct E as [e E]. apply sent_by_unchanged. rewrite E. reflexivity.
Qed.

(** X18.  A log handler is always built with blocking connect, and its
    first [emit] of a log record fails.  When [connect] takes the endpoint
    and the monitor reports the connection, construction returns; with a
    serializer that has no encoding for plain objects (msgpack has none)
    the [emit] that follows raises after the topic frame went out with
    SNDMORE, so the wire stays empty and the frame stays staged.  When
    the endpoint is refused, or the first settling event is anything but
    [EVENT_CONNECTED], or there is none, the constructor does not
    return. *)
Theorem handler_init_then_emit
    (serializer : Serializer) (str_other : value -> string)
    (net : network) (url : string) (this : ZMQ_Actor.self) :
  (endpoint_error net url = None ->
   first_decisive (events net) = Some EVENT_CONNECTED ->
   refuses_objects serializer ->
   forall cls attrs L,
     lookup "levelname" attrs = Some (VStr L) ->
     bind (ZMQ_handler.__init__ net url)
          (fun _ => ZMQ_Actor.on_socket
                      (ZMQ_handler.emit serializer str_other (VObject cls attrs)))
          this
     = Raise SerializerError
             (Some (set_staged [("logging." ++ lower L)%string]
                               (connecting PUB url None)))) /\
  (endpoint_error net url <> None \/
   first_decisive (events net) <> Some EVENT_CONNECTED ->
   returned (ZMQ_handler.__init__ net url this) = false).
Proof.
  unfold ZMQ_handler.__init__, Msg_Dispatcher.__init__. split.
  - intros Hok Hfd Hobj cls attrs L HL.
    unfold bind at 1. rewrite init_blocking, Hok, Hfd.
    unfold ZMQ_Actor.on_socket.
    assert (E : ZMQ_handler.emit serializer str_other (VObject cls attrs)
                  (connecting PUB url None)
                = Raise SerializerError
                        (set_staged [("logging." ++ lower L)%string]
                                    (connecting PUB url None))).
    { unfold ZMQ_handler.emit, bind, eval, getattr. rewrite HL. simpl.
      rewrite (send_unserializable serializer str_other _ _
                 (connecting PUB url None) eq_refl (Hobj cls attrs)).
      reflexivity. }
    rewrite E. reflexivity.
  - intros Hbad. rewrite init_blocking.
    destruct (endpoint_error net url) as [errno|]; [reflexivity|].
    destruct (first_decisive (events net)) as [[]|]; try reflexivity.
    exfalso. destruct Hbad as [H|H]; apply H; reflexivity.
Qed.

(* ================================================================== *)
(** ** The further properties at work *)

Lemma failed_send_taints_next_witness :
  dumps Run.strict Demo.warning = None /\
  sent_by (Msg_Dispatcher.send Run.strict Demo.str_other
             (VStr "notify.pingback_test") (VDict Demo.ping))
          (set_staged ["logging.warning"] Demo.publisher)
  = [["logging.warning"; "notify.pingback_test"; Run.raw_of Demo.ping]].
Proof.
  split; [reflexivity|].
  apply (failed_send_taints_next Run.strict Demo.str_other
           (VStr "logging.warning") Demo.warning
           (VStr "notify.pingback_test") (VDict Demo.ping)
           (Run.raw_of Demo.ping) Demo.publisher);
    reflexivity.
Defined.

Lemma notify_formats_subject_witness :
  Msg_Dispatcher.notify Run.codec Demo.str_other Demo.paired Demo.publisher
    = Raise TypeError Demo.publisher /\
  Msg_Dispatcher.notify Run.codec Demo.str_other Demo.wrapped Demo.publisher
    = Ret tt (published ["notify.A"; Run.raw_of Demo.wrapped] Demo.publisher) /\
  Msg_Dispatcher.notify Run.codec Demo.str_other Demo.numbered Demo.publisher
    = Ret tt (published ["notify.42"; Run.raw_of Demo.numbered] Demo.publisher).
Proof.
  split; [|split].
  - destruct (notify_formats_subject Run.codec Demo.str_other Demo.paired
                Demo.publisher) as (H & _).
    apply (H [VStr "A"; VStr "B"]); [reflexivity|simpl; lia].
  - destruct (notify_formats_subject Run.codec Demo.str_other Demo.wrapped
                Demo.publisher) as (_ & H & _).
    apply (H "A" (Run.raw_of Demo.wrapped)); reflexivity.
  - destruct (notify_formats_subject Run.codec Demo.str_other Demo.numbered
                Demo.publisher) as (_ & _ & H).
    apply (H 42%Z (Run.raw_of Demo.numbered)); reflexivity.
Defined.

Lemma emit_failure_modes_witness :
  ZMQ_handler.emit Run.strict Demo.str_other (VDict Demo.ping) Demo.publisher
    = Raise (AttributeError "levelname") Demo.publisher /\
  ZMQ_handler.emit Run.strict Demo.str_other Demo.warning Demo.publisher
    = Raise SerializerError (set_staged ["logging.warning"] Demo.publisher).
Proof.
  split.
  - destruct (emit_failure_modes Run.strict Demo.str_other (VDict Demo.ping)
                Demo.publisher) as (H & _).
    apply H. reflexivity.
  - destruct (emit_failure_modes Run.strict Demo.str_other Demo.warning
                Demo.publisher) as (_ & H).
    destruct (H "WARNING" eq_refl eq_refl eq_refl) as [E _]. exact E.
Defined.

Lemma recv_takes_two_frames_witness :
  inbox (deliver ["notify.x"; "x"] (deliver ["notify.lone"] Demo.monitor_socket))
    = [("notify.lone", false); ("notify.x", true); ("x", false)] /\
  Msg_Receiver.recv Run.codec false
    (deliver ["notify.x"; "x"] (deliver ["notify.lone"] Demo.monitor_socket))
  = Raise SerializerError (set_inbox [("x", false)] Demo.monitor_socket).
Proof.
  split; [reflexivity|].
  exact (recv_takes_two_frames Run.codec false
           (deliver ["notify.x"; "x"] (deliver ["notify.lone"] Demo.monitor_socket))
           "notify.lone" "notify.x" false true [("x", false)] eq_refl eq_refl).
Defined.

Lemma recv_short_queue_witness :
  Msg_Receiver.recv Run.codec true Demo.monitor_socket
    = Raise (ZMQError EAGAIN) Demo.monitor_socket /\
  Msg_Receiver.recv Run.codec false (deliver ["notify.lone"] Demo.monitor_socket)
    = Block Demo.monitor_socket.
Proof.
  split.
  - destruct (recv_short_queue Run.codec true Demo.monitor_socket eq_refl)
      as (H & _).
    apply H. reflexivity.
  - destruct (recv_short_queue Run.codec false
                (deliver ["notify.lone"] Demo.monitor_socket) eq_refl)
      as (_ & H).
    apply (H "notify.lone" false). reflexivity.
Defined.

Lemma recv_in_order_witness :
  recv_n Run.wide 2
    (deliver_all [["notify.pingback_test"; Run.raw_of Demo.ping];
                  ["notify.pong"; Run.raw_of Demo.pong]]
                 Demo.monitor_socket)
  = Ret [("notify.pingback_test", VDict Demo.ping);
         ("notify.pong", VDict Demo.pong)]
        Demo.monitor_socket.
Proof.
  apply (recv_in_order Run.wide
           [("notify.pingback_test", VDict Demo.ping, Run.raw_of Demo.ping);
            ("notify.pong", VDict Demo.pong, Run.raw_of Demo.pong)]
           Demo.monitor_socket);
    try reflexivity.
  repeat constructor.
Defined.

Lemma notify_monitor_misses_delayed_witness :
  Msg_Receiver.recv Run.wide false
    (deliver_all
       (sent_by (Msg_Dispatcher.notify Run.wide Demo.str_other Demo.ping)
                Demo.publisher)
       Demo.monitor_socket)
    = Ret ("notify.pingback_test", VDict Demo.ping) Demo.monitor_socket /\
  deliver_all
    (sent_by (Msg_Dispatcher.notify (Demo.serializer [VDict Demo.A1])
                Demo.str_other Demo.A1)
             Demo.publisher)
    Demo.monitor_socket
    = Demo.monitor_socket.
Proof.
  split.
  - apply (notify_monitor_misses_delayed Run.wide Demo.str_other Demo.ping
             "pingback_test" (Run.raw_of Demo.ping)
             Demo.publisher Demo.monitor_socket);
      reflexivity.
  - apply (notify_monitor_misses_delayed (Demo.serializer [VDict Demo.A1])
             Demo.str_other Demo.A1 "A" (Run.raw_of Demo.A1)
             Demo.publisher Demo.monitor_socket);
      reflexivity.
Defined.

Lemma receiver_init_bad_topics_witness :
  Msg_Receiver.__init__ (Run.tcp_only [EVENT_CONNECTED]) Run.url VNone true None
    = Raise TypeError (Some (connecting SUB Run.url None)) /\
  Msg_Receiver.__init__ (Run.tcp_only [EVENT_CONNECTED]) Run.url
    (VTuple [VStr "notify."; VInt 1; VStr "logging."]) true None
    = Raise TypeError
        (Some (set_subscriptions ["notify."] (connecting SUB Run.url None))).
Proof.
  destruct (receiver_init_bad_topics (Run.tcp_only [EVENT_CONNECTED]) Run.url
              true None eq_refl (or_intror eq_refl)) as [H1 H2].
  split.
  - apply H1. reflexivity.
  - apply (H2 ["notify."] (VInt 1) [VStr "logging."]).
    intros x Hx. discriminate Hx.
Defined.

Lemma requester_notify_fails_clean_witness :
  Requester.notify Run.codec [("v", VInt 1)] Demo.remote
    = Raise (KeyError "subject") Demo.remote /\
  Requester.notify Run.codec Demo.numbered Demo.remote
    = Raise TypeError Demo.remote /\
  Requester.notify Demo.refusing Demo.ping Demo.remote
    = Raise SerializerError Demo.remote.
Proof.
  split; [|split].
  - destruct (requester_notify_fails_clean Run.codec [("v", VInt 1)] Demo.remote)
      as (H & _).
    apply H. reflexivity.
  - destruct (requester_notify_fails_clean Run.codec Demo.numbered Demo.remote)
      as (_ & H & _).
    apply (H (VInt 42)); [reflexivity|]. intros x Hx. discriminate Hx.
  - destruct (requester_notify_fails_clean Demo.refusing Demo.ping Demo.remote)
      as (_ & _ & H).
    apply (H "pingback_test"); reflexivity.
Defined.

Lemma send_cmd_reads_one_frame_witness :
  Requester.send_cmd "t" (deliver ["1.5"; "more"] Demo.remote)
    = Ret "1.5" (set_inbox [("more", false)] (published ["t"] Demo.remote)) /\
  Requester.send_cmd "t"
    (set_inbox [("more", false)] (published ["t"] Demo.remote))
    = Raise (ZMQError EFSM)
            (set_inbox [("more", false)] (published ["t"] Demo.remote)).
Proof.
  destruct (send_cmd_reads_one_frame "t" "t" "1.5" [("more", false)]
              (deliver ["1.5"; "more"] Demo.remote) eq_refl eq_refl)
    as (E1 & E2 & _).
  split; [exact E1|exact E2].
Defined.

Lemma send_cmds_in_order_witness :
  exists s',
    send_cmds ["SUB_PORT"; "PUB_PORT"]
      (deliver ["50021"] (deliver ["50022"] Demo.remote))
    = Ret ["50022"; "50021"] s' /\
    wire_out s' = [["SUB_PORT"]; ["PUB_PORT"]] /\
    inbox s' = [] /\
    idle s' = true.
Proof.
  apply (send_cmds_in_order ["SUB_PORT"; "PUB_PORT"] ["50022"; "50021"]
           (deliver ["50021"] (deliver ["50022"] Demo.remote)));
    reflexivity.
Defined.

Lemma closed_dispatcher_never_sends_witness :
  sent_by (notify_each Run.codec Demo.str_other [Demo.ping; Demo.A1])
          (final_state (Msg_Dispatcher.__del__ Demo.publisher))
  = [].
Proof.
  apply (closed_dispatcher_never_sends Run.codec Demo.str_other
           [Demo.ping; Demo.A1] Demo.publisher).
  intros X. discriminate X.
Defined.

Lemma handler_init_then_emit_witness :
  bind (ZMQ_handler.__init__
          (Run.tcp_only [EVENT_CONNECT_DELAYED; EVENT_CONNECTED]) Run.url)
       (fun _ => ZMQ_Actor.on_socket
                   (ZMQ_handler.emit Run.strict Demo.str_other Demo.warning)) None
    = Raise SerializerError
            (Some (set_staged ["logging.warning"] (connecting PUB Run.url None))) /\
  returned (ZMQ_handler.__init__
              (Run.tcp_only [EVENT_CONNECT_DELAYED; EVENT_CLOSED]) Run.url None)
    = false /\
  returned (ZMQ_handler.__init__ (Run.tcp_only [EVENT_CONNECTED]) "localhost" None)
    = false.
Proof.
  split; [|split].
  - destruct (handler_init_then_emit Run.strict Demo.str_other
                (Run.tcp_only [EVENT_CONNECT_DELAYED; EVENT_CONNECTED])
                Run.url None) as (H & _).
    apply (H eq_refl eq_refl (fun cls attrs => eq_refl) "LogRecord"
             [("levelname", VStr "WARNING"); ("msg", VStr "low battery")]
             "WARNING").
    reflexivity.
  - destruct (handler_init_then_emit Run.strict Demo.str_other
                (Run.tcp_only [EVENT_CONNECT_DELAYED; EVENT_CLOSED])
                Run.url None) as (_ & H).
    apply H. right. intros X. discriminate X.
  - destruct (handler_init_then_emit Run.strict Demo.str_other
                (Run.tcp_only [EVENT_CONNECTED]) "localhost" None) as (_ & H).
    apply H. left. intros X. discriminate X.
Defined.

(* ================================================================== *)
(** ** Further properties: subscribing, and replies to notifications *)

(** X10.  Subscriptions are not retroactive.  A message that arrives while no
    subscription matches its topic is dropped, and subscribing afterwards
    does not bring it back; the same message arriving after the
    [subscribe] call is queued. *)
Theorem subscribe_not_retroactive
    (p : string) (topic raw : bytes) (s : socket) :
  listening s = true ->
  existsb (fun q => String.prefix q topic) (subscriptions s) = false ->
  String.prefix p topic = true ->
  Msg_Receiver.subscribe (VStr p) (deliver [topic; raw] s)
    = Ret tt (set_subscriptions (subscriptions s ++ [p]) s) /\
  inbox (set_subscriptions (subscriptions s ++ [p]) s) = inbox s /\
  inbox (deliver [topic; raw] (set_subscriptions (subscriptions s ++ [p]) s))
    = inbox s ++ two_frames topic raw.
Proof.
  intros Hl Hno Hp. pose proof (listening_inv s Hl) as [Hc Ht].
  assert (Hdrop : deliver [topic; raw] s = s).
  { unfold deliver, matches. rewrite Ht, Hno. reflexivity. }
  split; [|split].
  - rewrite Hdrop. unfold Msg_Receiver.subscribe, set_SUBSCRIBE, is_sub.
    rewrite Hc, Ht. reflexivity.
  - reflexivity.
  - unfold deliver, matches.
    cbn [stype set_subscriptions subscriptions]. rewrite Ht.
    rewrite existsb_app. cbn [existsb]. rewrite Hno, Hp. reflexivity.
Qed.

Lemma subscribe_not_retroactive_witness :
  Msg_Receiver.subscribe (VStr "logging.")
    (deliver ["logging.warning"; "w"] Demo.monitor_socket)
    = Ret tt (set_subscriptions ["notify."; "logging."] Demo.monitor_socket) /\
  inbox (deliver ["logging.warning"; "w"]
           (set_subscriptions ["notify."; "logging."] Demo.monitor_socket))
    = [("logging.warning", true); ("w", false)].
Proof.
  destruct (subscribe_not_retroactive "logging." "logging.warning" "w"
              Demo.monitor_socket eq_refl eq_refl eq_refl) as (E1 & _ & E2).
  split; [exact E1|exact E2].
Defined.

(** X14.  [Requester.notify] is a request like any other.  On an idle
    connection it returns the one-frame reply and leaves the connection
    idle; while a reply is outstanding it is refused with [EFSM] and
    sends nothing. *)
Theorem requester_notify_reply
    (serializer : Serializer) (notification : dict) (subject : string)
    (raw reply : bytes) (rest : list (bytes * bool)) (s : socket) :
  idle s = true ->
  lookup "subject" notification = Some (VStr subject) ->
  dumps serializer (VDict notification) = Some raw ->
  inbox s = (reply, false) :: rest ->
  Requester.notify serializer notification s
    = Ret reply (set_awaiting_reply false
                   (set_inbox rest
                      (published [("notify." ++ subject)%string; raw] s))) /\
  idle (set_awaiting_reply false
          (set_inbox rest
             (published [("notify." ++ subject)%string; raw] s))) = true /\
  Requester.notify serializer notification
      (published [("notify." ++ subject)%string; raw] s)
    = Raise (ZMQError EFSM) (published [("notify." ++ subject)%string; raw] s).
Proof.
  intros Hi Hsub Hd Hin.
  pose proof (idle_inv s Hi) as (Hc & Ht & Ha & Hs).
  split; [|split].
  - unfold Requester.notify, bind at 1 2 3, eval, getitem, serializer_dumps.
    rewrite Hsub. cbn [concat_str]. rewrite Hd. unfold bind.
    rewrite (send_multipart_idle _ raw s Hi).
    unfold Zmq.recv, is_pub, is_req. open_socket s. subst. reflexivity.
  - open_socket s. subst. reflexivity.
  - unfold Requester.notify, bind, eval, getitem, serializer_dumps.
    rewrite Hsub. cbn [concat_str]. rewrite Hd.
    unfold send_multipart, bind, Zmq.send, is_sub, is_req.
    open_socket s. subst. reflexivity.
Qed.

Lemma requester_notify_reply_witness :
  Requester.notify Run.codec Demo.A1 (deliver ["ok"] Demo.remote)
  = Ret "ok" (set_awaiting_reply false
                (published ["notify.A"; Run.raw_of Demo.A1] Demo.remote)).
Proof.
  destruct (requester_notify_reply Run.codec Demo.A1 "A" (Run.raw_of Demo.A1)
              "ok" [] (deliver ["ok"] Demo.remote)
              eq_refl eq_refl eq_refl eq_refl) as (E & _).
  exact E.
Defined.
